(** * pilot2 event service and generic HPC workflow: a shallow embedding

    The development follows two source files of the repository:
    - [pilot/test/test_eventservice.py]: the [TestESHook] work source and the
      unit tests pinning the behaviour of the event-service classes;
    - [pilot/workflow/generic_hpc.py]: the [run] entry point of the generic
      HPC workflow with its [try]/[except] skeleton.

    The event-service classes themselves ([ESProcess], [ESManager]) are not
    among these files; their definitions below follow the specification and
    the test messages, and say so.

    Python lists are Rocq lists, Python [int] is [Z], byte strings are
    [string], dictionaries keyed by strings are [gmap string _]. *)

From stdpp Require Import base list strings gmap.
From Stdlib Require Import ZArith Lia Ascii.

Local Open Scope Z_scope.
Local Open Scope list_scope.

(** ** The event-service hook used by the tests *)

Module Hook.
Section TestESHook.

(** An event range is an opaque JSON object for the hook: it is only moved
    between lists, never inspected. *)
Context {EventRange OutMessage PayloadSpec : Type}.

(** The four private attributes set by [TestESHook.__init__]. *)
Record TestESHook := mkHook {
  payload : PayloadSpec;
  event_ranges : list EventRange;
  injected_event_ranges : list EventRange;
  outputs : list OutMessage
}.

(** [__init__]: the job file gives the payload and the ranges; the two
    bookkeeping lists start empty. *)
Definition init (job_payload : PayloadSpec) (job_ranges : list EventRange)
  : TestESHook :=
  mkHook job_payload job_ranges [] [].

Definition get_payload (self : TestESHook) : PayloadSpec := payload self.

(** One iteration of the [for _ in range(num_ranges)] loop: when the store
    is not empty, [pop(0)] its head and append it to both [ret] and the
    injected record. *)
Definition get_event_ranges_body (st : TestESHook * list EventRange)
  : TestESHook * list EventRange :=
  let '(self, ret) := st in
  match event_ranges self with
  | [] => (self, ret)
  | event_range :: rest =>
      (mkHook (payload self) rest
              (injected_event_ranges self ++ [event_range])
              (outputs self),
       ret ++ [event_range])
  end.

(** [get_event_ranges(self, num_ranges)]: [range(num_ranges)] has
    [Z.to_nat num_ranges] elements (none when [num_ranges <= 0]). The
    result pairs the returned list with the mutated hook. *)
Definition get_event_ranges (num_ranges : Z) (self : TestESHook)
  : list EventRange * TestESHook :=
  let '(self', ret) :=
    Nat.iter (Z.to_nat num_ranges) get_event_ranges_body (self, []) in
  (ret, self').

Definition handle_out_message (message : OutMessage) (self : TestESHook)
  : TestESHook :=
  mkHook (payload self) (event_ranges self) (injected_event_ranges self)
         (outputs self ++ [message]).

Definition get_injected_event_ranges (self : TestESHook) : list EventRange :=
  injected_event_ranges self.

Definition get_outputs (self : TestESHook) : list OutMessage := outputs self.

(** A sequence of calls [get_event_ranges(n1)], [get_event_ranges(n2)], ...
    on the same hook object: the returned lists in call order, and the hook
    after the last call. *)
Fixpoint calls (nums : list Z) (self : TestESHook)
  : list (list EventRange) * TestESHook :=
  match nums with
  | [] => ([], self)
  | n :: nums' =>
      let '(ret, self') := get_event_ranges n self in
      let '(rets, self'') := calls nums' self' in
      (ret :: rets, self'')
  end.

(** *** The loop in closed form *)

Lemma iter_body_closed (k : nat) (self : TestESHook) (ret : list EventRange) :
  Nat.iter k get_event_ranges_body (self, ret) =
  (mkHook (payload self) (drop k (event_ranges self))
          (injected_event_ranges self ++ take k (event_ranges self))
          (outputs self),
   ret ++ take k (event_ranges self)).
Proof.
  revert self ret. induction k as [|k IH]; intros self ret.
  - cbn. rewrite drop_0, !app_nil_r. by destruct self.
  - rewrite Nat.iter_succ_r. unfold get_event_ranges_body at 2.
    destruct (event_ranges self) as [|er rest] eqn:Hstore.
    + rewrite IH, Hstore. by rewrite drop_nil, take_nil.
    + rewrite IH. cbn [payload event_ranges injected_event_ranges outputs].
      cbn [take drop]. by rewrite <- !app_assoc.
Qed.

Lemma get_event_ranges_closed (n : Z) (self : TestESHook) :
  get_event_ranges n self =
  (take (Z.to_nat n) (event_ranges self),
   mkHook (payload self) (drop (Z.to_nat n) (event_ranges self))
          (injected_event_ranges self ++ take (Z.to_nat n) (event_ranges self))
          (outputs self)).
Proof. unfold get_event_ranges. by rewrite iter_body_closed. Qed.

Lemma get_event_ranges_store (n : Z) (self : TestESHook) :
  event_ranges (get_event_ranges n self).2 =
  drop (Z.to_nat n) (event_ranges self).
Proof. by rewrite get_event_ranges_closed. Qed.

Lemma get_event_ranges_nil_store (n : Z) (self : TestESHook) :
  event_ranges self = [] ->
  get_event_ranges n self = ([], self).
Proof.
  intros Hnil. rewrite get_event_ranges_closed, Hnil, take_nil, drop_nil.
  rewrite app_nil_r. destruct self; cbn in *; by subst.
Qed.

(** For a positive request the result is empty only when the store is. *)
Lemma get_event_ranges_nil_inv (n : Z) (self : TestESHook) :
  0 < n -> (get_event_ranges n self).1 = [] -> event_ranges self = [].
Proof.
  intros Hn. rewrite get_event_ranges_closed. cbn.
  destruct (event_ranges self) as [|er rest]; [done|].
  destruct (Z.to_nat n) eqn:Hk; [lia|]. by cbn.
Qed.

Lemma calls_nil_store (nums : list Z) (self : TestESHook) :
  event_ranges self = [] ->
  calls nums self = (replicate (length nums) [], self).
Proof.
  intros Hnil. induction nums as [|n nums IH]; [done|].
  cbn. by rewrite (get_event_ranges_nil_store n self Hnil), IH.
Qed.

Lemma calls_app (ns ms : list Z) (self : TestESHook) :
  calls (ns ++ ms) self =
  ((calls ns self).1 ++ (calls ms (calls ns self).2).1,
   (calls ms (calls ns self).2).2).
Proof.
  revert self. induction ns as [|n ns IH]; intros self.
  - cbn. by destruct (calls ms self).
  - cbn. destruct (get_event_ranges n self) as [ret self'].
    rewrite IH. destruct (calls ns self') as [rets self'']. cbn.
    by destruct (calls ms self'').
Qed.

(** Every positive request on a non-empty store shrinks it, so a run of
    positive requests longer than the store empties it. *)
Lemma calls_store_length (nums : list Z) (self : TestESHook) :
  Forall (fun n => 0 < n) nums ->
  (length (event_ranges (calls nums self).2)
   <= length (event_ranges self) - length nums)%nat.
Proof.
  intros Hpos. revert self.
  induction Hpos as [|n nums Hn _ IH]; intros self; [cbn; lia|].
  cbn. destruct (get_event_ranges n self) as [ret self'] eqn:Hcall.
  specialize (IH self').
  destruct (calls nums self') as [rets self'']. cbn in *.
  assert (Hs : event_ranges self' = drop (Z.to_nat n) (event_ranges self)).
  { by rewrite <- get_event_ranges_store, Hcall. }
  rewrite Hs, length_drop in IH. lia.
Qed.

(** The invariant linking the three lists to the initial store. *)
Lemma calls_invariant (nums : list Z) (self : TestESHook) :
  let '(rets, self') := calls nums self in
  injected_event_ranges self' = injected_event_ranges self ++ concat rets /\
  event_ranges self = concat rets ++ event_ranges self' /\
  payload self' = payload self /\ outputs self' = outputs self.
Proof.
  revert self. induction nums as [|n nums IH]; intros self.
  - cbn. by rewrite app_nil_r.
  - cbn. rewrite get_event_ranges_closed. specialize (IH
      (mkHook (payload self) (drop (Z.to_nat n) (event_ranges self))
         (injected_event_ranges self ++ take (Z.to_nat n) (event_ranges self))
         (outputs self))).
    destruct (calls nums _) as [rets self'']. cbn in *.
    destruct IH as (Hinj & Hstore & Hp & Ho).
    repeat split; try done.
    + by rewrite Hinj, <- app_assoc.
    + by rewrite <- app_assoc, <- Hstore, take_drop.
Qed.

(** *** Claims about the hook *)

(** C6: for every positive [n] and every hook state, [get_event_ranges(n)]
    returns between 0 and [n] ranges; after any run of positive requests at
    least as long as the (finite) store the call returns the empty list; and
    once a call has returned the empty list, every later call, whatever its
    argument, returns the empty list too. *)
Theorem get_event_ranges_bounded_exhausting (self : TestESHook) (n : Z)
  (Hn : 0 < n) :
  (0 <= Z.of_nat (length (get_event_ranges n self).1) <= n) /\
  (forall nums : list Z,
      Forall (fun m => 0 < m) nums ->
      (length (event_ranges self) <= length nums)%nat ->
      (get_event_ranges n (calls nums self).2).1 = []) /\
  ((get_event_ranges n self).1 = [] ->
   forall nums : list Z,
     (calls nums (get_event_ranges n self).2).1 = replicate (length nums) []).
Proof.
  repeat split.
  - lia.
  - rewrite get_event_ranges_closed. cbn. rewrite length_take. lia.
  - intros nums Hpos Hlen.
    pose proof (calls_store_length nums self Hpos) as Hle.
    rewrite get_event_ranges_nil_store; [done|].
    apply length_zero_iff_nil. lia.
  - intros Hret nums.
    pose proof (get_event_ranges_nil_inv n self Hn Hret) as Hnil.
    rewrite (get_event_ranges_nil_store n self Hnil). cbn.
    by rewrite calls_nil_store.
Qed.

(** C10: across any sequence of calls on a freshly initialised hook, the
    ranges handed out so far, concatenated in call order, are exactly the
    first [k] entries of the initial store for some [k] (so every stored
    entry is handed out at most once and in stored order), the store keeps
    exactly the rest, and the injected record equals that concatenation.
    The sequence [nums] is arbitrary, so this holds after every call. *)
Theorem get_event_ranges_injected_record
  (job_payload : PayloadSpec) (store : list EventRange) (nums : list Z) :
  let '(rets, self') := calls nums (init job_payload store) in
  get_injected_event_ranges self' = concat rets /\
  exists k : nat,
    concat rets = take k store /\ event_ranges self' = drop k store.
Proof.
  pose proof (calls_invariant nums (init job_payload store)) as Hinv.
  destruct (calls nums (init job_payload store)) as [rets self'].
  cbn in Hinv. destruct Hinv as (Hinj & Hstore & _ & _).
  split; [done|].
  exists (length (concat rets)). rewrite Hstore.
  by rewrite take_app_length, drop_app_length.
Qed.

End TestESHook.

(** A hook over three numbered ranges, asked for two at a time. *)
Definition three_ranges_hook : @TestESHook nat unit unit :=
  init tt [1%nat; 2%nat; 3%nat].

Lemma get_event_ranges_bounded_exhausting_witness :
  0 < 2 /\
  (get_event_ranges 2 three_ranges_hook).1 = [1%nat; 2%nat] /\
  (get_event_ranges 2 (calls [2; 1; 3] three_ranges_hook).2).1 = [].
Proof.
  split; [lia|]. split; [reflexivity|].
  pose proof (get_event_ranges_bounded_exhausting three_ranges_hook 2
                ltac:(lia)) as (_ & Hev & _).
  apply (Hev [2; 1; 3]).
  - repeat (apply Forall_cons_2; [lia|]). apply Forall_nil_2.
  - cbn. lia.
Defined.

(** *** More about the hook: exact results, composition, interleavings *)

Section HookCalls.

Context {EventRange OutMessage PayloadSpec : Type}.

Local Abbreviation TestHook := (@TestESHook EventRange OutMessage PayloadSpec).

(** A call of one of the two methods the driver is bound to. *)
Inductive HookCall : Type :=
| CallGet (num_ranges : Z)
| CallHandle (message : OutMessage).

(** The calls applied in order to the same hook object. *)
Fixpoint run_calls (cs : list HookCall) (self : TestHook) : TestHook :=
  match cs with
  | [] => self
  | CallGet n :: cs' => run_calls cs' (get_event_ranges n self).2
  | CallHandle m :: cs' => run_calls cs' (handle_out_message m self)
  end.

(** The messages of the [handle_out_message] calls, in call order. *)
Fixpoint handled (cs : list HookCall) : list OutMessage :=
  match cs with
  | [] => []
  | CallGet _ :: cs' => handled cs'
  | CallHandle m :: cs' => m :: handled cs'
  end.

Lemma take_min_length {A : Type} (k : nat) (l : list A) :
  take (Nat.min k (length l)) l = take k l.
Proof.
  destruct (Nat.le_ge_cases k (length l)) as [Hle|Hge].
  - by rewrite Nat.min_l.
  - rewrite Nat.min_r by done. by rewrite !take_ge by lia.
Qed.

Lemma drop_min_length {A : Type} (k : nat) (l : list A) :
  drop (Nat.min k (length l)) l = drop k l.
Proof.
  destruct (Nat.le_ge_cases k (length l)) as [Hle|Hge].
  - by rewrite Nat.min_l.
  - rewrite Nat.min_r by done. by rewrite !drop_ge by lia.
Qed.

Lemma run_calls_invariant (cs : list HookCall) (self : TestHook) :
  injected_event_ranges (run_calls cs self) ++ event_ranges (run_calls cs self)
    = injected_event_ranges self ++ event_ranges self /\
  outputs (run_calls cs self) = outputs self ++ handled cs /\
  payload (run_calls cs self) = payload self.
Proof.
  revert self. induction cs as [|[n|m] cs IH]; intros self; cbn.
  - by rewrite app_nil_r.
  - destruct (IH (get_event_ranges n self).2) as (Hranges & Hout & Hpay).
    rewrite Hranges, Hout, Hpay, get_event_ranges_closed. cbn.
    by rewrite <- app_assoc, take_drop.
  - destruct (IH (handle_out_message m self)) as (Hranges & Hout & Hpay).
    rewrite Hranges, Hout, Hpay. cbn. by rewrite <- app_assoc.
Qed.

(** X1: [get_event_ranges(n)] hands out exactly the first
    [min(n, len(store))] ranges of the store: that many are returned, in
    stored order, the store loses exactly those, and the injected record
    gains exactly those. *)
Theorem get_event_ranges_exact (n : Z) (self : TestHook) :
  let k := Nat.min (Z.to_nat n) (length (event_ranges self)) in
  (get_event_ranges n self).1 = take k (event_ranges self) /\
  length (get_event_ranges n self).1 = k /\
  event_ranges (get_event_ranges n self).2 = drop k (event_ranges self) /\
  injected_event_ranges (get_event_ranges n self).2 =
    injected_event_ranges self ++ take k (event_ranges self).
Proof.
  cbn zeta. rewrite get_event_ranges_closed. cbn.
  rewrite take_min_length, drop_min_length, length_take.
  repeat split; lia.
Qed.

(** X2: a request for zero or a negative number of ranges returns the empty
    list and leaves the hook as it was, whatever the store holds. *)
Theorem get_event_ranges_nonpositive (n : Z) (self : TestHook) :
  n <= 0 -> get_event_ranges n self = ([], self).
Proof.
  intros Hn. rewrite get_event_ranges_closed.
  replace (Z.to_nat n) with 0%nat by lia.
  cbn. rewrite app_nil_r. by destruct self.
Qed.

(** X3: two requests in a row are one request for the sum: for non-negative
    [n] and [m], asking for [n] and then for [m] returns, concatenated, what
    one request for [n + m] returns, and leaves the same hook. *)
Theorem get_event_ranges_compose (n m : Z) (self : TestHook) :
  0 <= n -> 0 <= m ->
  get_event_ranges (n + m) self =
  ((get_event_ranges n self).1
     ++ (get_event_ranges m (get_event_ranges n self).2).1,
   (get_event_ranges m (get_event_ranges n self).2).2).
Proof.
  intros Hn Hm. rewrite !get_event_ranges_closed. cbn.
  rewrite Z2Nat.inj_add by done.
  rewrite <- app_assoc, !take_take_drop, drop_drop. done.
Qed.

(** X4: whatever way calls of [get_event_ranges] and [handle_out_message]
    are interleaved on a fresh hook, the injected record followed by the
    store is always the initial store, the outputs are exactly the handled
    messages in call order, and the payload is the one of the job file. *)
Theorem run_calls_conservation (job_payload : PayloadSpec)
  (store : list EventRange) (cs : list HookCall) :
  get_injected_event_ranges (run_calls cs (init job_payload store))
    ++ event_ranges (run_calls cs (init job_payload store)) = store /\
  get_outputs (run_calls cs (init job_payload store)) = handled cs /\
  get_payload (run_calls cs (init job_payload store)) = job_payload.
Proof.
  exact (run_calls_invariant cs (init job_payload store)).
Qed.

(** X5: [handle_out_message] and [get_event_ranges] do not see each other:
    handling a message first or last gives the same ranges and the same
    hook. *)
Theorem handle_out_message_commutes (n : Z) (m : OutMessage) (self : TestHook) :
  get_event_ranges n (handle_out_message m self) =
  ((get_event_ranges n self).1,
   handle_out_message m (get_event_ranges n self).2).
Proof. by rewrite !get_event_ranges_closed. Qed.

(** X6: when the ranges of the job file are pairwise distinct, no range is
    handed out twice over any sequence of requests, and a range that was
    handed out is no longer in the store. *)
Theorem get_event_ranges_no_duplicates (job_payload : PayloadSpec)
  (store : list EventRange) (nums : list Z) :
  NoDup store ->
  NoDup (concat (calls nums (@init EventRange OutMessage PayloadSpec job_payload store)).1) /\
  (forall range : EventRange,
      range ∈ concat (calls nums (@init EventRange OutMessage PayloadSpec job_payload store)).1 ->
      range ∉ event_ranges (calls nums (@init EventRange OutMessage PayloadSpec job_payload store)).2).
Proof.
  intros Hnodup.
  pose proof (calls_invariant nums (@init EventRange OutMessage PayloadSpec job_payload store)) as Hinv.
  destruct (calls nums (@init EventRange OutMessage PayloadSpec job_payload store)) as [rets self'].
  cbn in *. destruct Hinv as (_ & Hstore & _).
  rewrite Hstore in Hnodup. apply NoDup_app in Hnodup as (Hret & Hdisj & _).
  by split.
Qed.

End HookCalls.

Lemma get_event_ranges_nonpositive_witness :
  -1 <= 0 /\ get_event_ranges (-1) three_ranges_hook = ([], three_ranges_hook).
Proof.
  split; [lia|]. apply get_event_ranges_nonpositive. lia.
Defined.

Lemma get_event_ranges_compose_witness :
  (get_event_ranges (1 + 1) three_ranges_hook).1 = [1%nat; 2%nat].
Proof.
  rewrite (get_event_ranges_compose 1 1 three_ranges_hook) by lia.
  reflexivity.
Defined.

Lemma get_event_ranges_no_duplicates_witness :
  NoDup (concat (calls [2; 2] three_ranges_hook).1).
Proof.
  apply (get_event_ranges_no_duplicates tt [1%nat; 2%nat; 3%nat] [2; 2]).
  exact (bool_decide_unpack (NoDup [1%nat; 2%nat; 3%nat]) I).
Defined.

End Hook.

(** ** Python exceptions and results *)

Module Py.

(** [except Exception] catches the subclasses of [Exception]; [SystemExit],
    [KeyboardInterrupt] and [GeneratorExit] derive from [BaseException]
    only. *)
Inductive exn_base : Type := ExceptionSubclass | BaseExceptionOnly.

Record exn := mkExn {
  exn_kind : exn_base;
  exn_name : string;
  exn_text : string
}.

(** [str(e)]. *)
Definition str (e : exn) : string := exn_text e.

(** A call either returns a value or raises. *)
Inductive result (A : Type) : Type :=
| Returns (a : A)
| Raises (e : exn).

Arguments Returns {A} a.
Arguments Raises {A} e.

Definition TypeError (text : string) : exn :=
  mkExn ExceptionSubclass "TypeError" text.

End Py.

(** ** Text utilities (Python [str] operations used by the line protocol) *)

Module Text.

Local Open Scope string_scope.

Definition is_digit (c : ascii) : bool :=
  ((48 <=? N_of_ascii c) && (N_of_ascii c <=? 57))%N.

(** [str.isspace] on one ASCII character: space, TAB, LF, VT, FF, CR. *)
Definition is_space (c : ascii) : bool :=
  ((N_of_ascii c =? 32) || ((9 <=? N_of_ascii c) && (N_of_ascii c <=? 13)))%N.

Definition is_letter (c : ascii) : bool :=
  (((65 <=? N_of_ascii c) && (N_of_ascii c <=? 90))
   || ((97 <=? N_of_ascii c) && (N_of_ascii c <=? 122)))%N.

Definition is_char (x : ascii) (c : ascii) : bool := Ascii.eqb c x.

Fixpoint forallb_str (p : ascii -> bool) (s : string) : bool :=
  match s with
  | EmptyString => true
  | String c s' => p c && forallb_str p s'
  end.

(** [s.split(sep)] for a one-character separator: never the empty list. *)
Fixpoint split_on (sep : ascii) (s : string) : list string :=
  match s with
  | EmptyString => [EmptyString]
  | String c s' =>
      if Ascii.eqb c sep then EmptyString :: split_on sep s'
      else match split_on sep s' with
           | [] => [String c EmptyString]
           | seg :: segs => String c seg :: segs
           end
  end.

(** [sep.join(segs)]. *)
Fixpoint join_with (sep : ascii) (segs : list string) : string :=
  match segs with
  | [] => EmptyString
  | [seg] => seg
  | seg :: segs' => seg +:+ String sep (join_with sep segs')
  end.

(** The longest prefix whose characters satisfy [p], and the rest. *)
Fixpoint span (p : ascii -> bool) (s : string) : string * string :=
  match s with
  | EmptyString => (EmptyString, EmptyString)
  | String c s' =>
      if p c then let '(pre, rest) := span p s' in (String c pre, rest)
      else (EmptyString, s)
  end.

(** [s[len(p):]] when [s.startswith(p)]. *)
Fixpoint strip_prefix (p s : string) : option string :=
  match p, s with
  | EmptyString, _ => Some s
  | String a p', String b s' =>
      if Ascii.eqb a b then strip_prefix p' s' else None
  | String _ _, EmptyString => None
  end.

(** The text after the first occurrence of [needle], if there is one. *)
Fixpoint find_after (needle s : string) : option string :=
  match strip_prefix needle s with
  | Some rest => Some rest
  | None =>
      match s with
      | EmptyString => None
      | String _ s' => find_after needle s'
      end
  end.

(** [part.split(":", 1)] when the separator occurs. *)
Fixpoint partition_on (sep : ascii) (s : string) : option (string * string) :=
  match s with
  | EmptyString => None
  | String c s' =>
      if Ascii.eqb c sep then Some (EmptyString, s')
      else match partition_on sep s' with
           | Some (k, v) => Some (String c k, v)
           | None => None
           end
  end.

(** [int(s)] for a non-empty run of decimal digits; [None] stands for the
    [ValueError] of anything else. *)
Fixpoint digits_value (acc : Z) (s : string) : Z :=
  match s with
  | EmptyString => acc
  | String c s' => digits_value (10 * acc + Z.of_N (N_of_ascii c - 48)) s'
  end.

Definition parse_int (s : string) : option Z :=
  match s with
  | EmptyString => None
  | _ => if forallb_str is_digit s then Some (digits_value 0 s) else None
  end.

(** [sep.join(items)] for a separator of any length. *)
Fixpoint join_str (sep : string) (items : list string) : string :=
  match items with
  | [] => EmptyString
  | [item] => item
  | item :: items' => item +:+ sep +:+ join_str sep items'
  end.

(** [s.lower()] on ASCII text. *)
Definition lower_char (c : ascii) : ascii :=
  if ((65 <=? N_of_ascii c) && (N_of_ascii c <=? 90))%N
  then ascii_of_N (N_of_ascii c + 32) else c.

Fixpoint lower (s : string) : string :=
  match s with
  | EmptyString => EmptyString
  | String c s' => String (lower_char c) (lower s')
  end.

(** [s.endswith(c)] for one character. *)
Fixpoint ends_with (c : ascii) (s : string) : bool :=
  match s with
  | EmptyString => false
  | String x EmptyString => Ascii.eqb x c
  | String _ s' => ends_with c s'
  end.

(** [os.path.join(a, b)] of [posixpath]. *)
Definition os_path_join (a b : string) : string :=
  match b with
  | String "/" _ => b
  | _ =>
      if String.eqb a EmptyString || ends_with "/" a then a +:+ b
      else a +:+ String "/" b
  end.

(** First value bound to [key] in an association list. *)
Fixpoint assoc (key : string) (kvs : list (string * string)) : option string :=
  match kvs with
  | [] => None
  | (k, v) :: kvs' => if String.eqb k key then Some v else assoc key kvs'
  end.

(** [c] does not occur in [s]. *)
Definition no_char (c : ascii) (s : string) : bool :=
  forallb_str (fun x => negb (Ascii.eqb x c)) s.


(** *** Facts about the text utilities *)

Lemma append_cons (c : ascii) (s t : string) :
  String c s +:+ t = String c (s +:+ t).
Proof. reflexivity. Qed.

Lemma append_nil_l (t : string) : "" +:+ t = t.
Proof. reflexivity. Qed.

(** Push appends through constructors, then compute. *)
Ltac text_simpl := rewrite ?append_cons, ?append_nil_l; cbn.

Lemma append_nil_r (s : string) : s +:+ "" = s.
Proof. induction s as [|c s IH]; text_simpl; [done|by rewrite IH]. Qed.

Lemma append_assoc (a b c : string) : (a +:+ b) +:+ c = a +:+ (b +:+ c).
Proof. induction a as [|x a IH]; text_simpl; [done|by rewrite IH]. Qed.

Lemma forallb_str_app (p : ascii -> bool) (a b : string) :
  forallb_str p (a +:+ b) = forallb_str p a && forallb_str p b.
Proof.
  induction a as [|x a IH]; text_simpl; [done|].
  by rewrite IH, andb_assoc.
Qed.

Lemma split_on_not_nil (sep : ascii) (s : string) : split_on sep s <> [].
Proof.
  induction s as [|c s IH]; cbn; [done|].
  destruct (Ascii.eqb c sep); [done|]. by destruct (split_on sep s).
Qed.

Lemma split_on_app (sep : ascii) (a b : string) :
  no_char sep a = true ->
  split_on sep (a +:+ b) =
  match split_on sep b with
  | [] => [a]
  | seg :: segs => (a +:+ seg) :: segs
  end.
Proof.
  pose proof (split_on_not_nil sep b) as Hne.
  unfold no_char. induction a as [|x a IH]; text_simpl.
  - intros _. by destruct (split_on sep b).
  - intros [Hx Ha]%andb_prop. apply negb_true_iff in Hx. rewrite Hx.
    rewrite (IH Ha). by destruct (split_on sep b).
Qed.







Lemma partition_on_app (sep : ascii) (k v : string) :
  no_char sep k = true ->
  partition_on sep (k +:+ String sep v) = Some (k, v).
Proof.
  unfold no_char. induction k as [|c k IH]; text_simpl.
  - intros _. by rewrite Ascii.eqb_refl.
  - intros [Hc Hk]%andb_prop. apply negb_true_iff in Hc.
    by rewrite Hc, (IH Hk).
Qed.


End Text.

(** ** The process driver: message parser and hook slots *)

Module ESProcess.
Import Text.

Local Open Scope string_scope.

Inductive Status : Type := finished | failed.

(** The record handed to [handle_out_message]; the optional fields are the
    keys a [failed] message does not carry. *)
Record OutMessage := mkOut {
  id : string;
  status : Status;
  output : option string;
  cpu : option Z;
  wall : option Z;
  message : string
}.

(** Characters of an identifier token: letters, decimal digits and the
    hyphen between the segments of an id. *)
Definition is_id_char (c : ascii) : bool :=
  is_digit c || is_letter c || is_char "-" c.

Definition not_space (c : ascii) : bool := negb (is_space c).

(** The double quote around a quoted request, and the text that opens the
    [eventRangeID] field inside it. *)
Definition double_quote : ascii := "034".
Definition not_quote (c : ascii) : bool := negb (Ascii.eqb c double_quote).
Definition request_field : string := "eventRangeID': u'".

(** A file-path segment: an absolute path, as in the sample lines. *)
Definition is_file_path (seg : string) : bool :=
  match seg with
  | String c _ => Ascii.eqb c "/"
  | EmptyString => false
  end.

(** Every segment after the path must read [KEY:value]. *)
Fixpoint parse_segments (segs : list string) : option (list (string * string)) :=
  match segs with
  | [] => Some []
  | seg :: segs' =>
      kv ← partition_on ":" seg;
      kvs ← parse_segments segs';
      Some (kv :: kvs)
  end.

Section Parser.

(** The spec does not say how many hyphen-delimited segments a canonical
    event-range id has; the parser takes the number as a parameter. *)
Variable canonical_segments : nat.

(** Modelled from the spec: the id carried by an identifier token, "with any
    trailing hyphen-delimited event-index suffix beyond the canonical
    multi-segment id stripped" ([ESProcess] is not among the sources). *)
Definition canonical_id (token : string) : string :=
  join_with "-" (take canonical_segments (split_on "-" token)).

(** Modelled from the spec: the success shape of [parse_out_message], "a
    leading file-path segment followed by comma-separated KEY:value segments
    including ID:<id>, CPU:<n>, WALL:<n>". *)
Definition parse_success (text : string) : option OutMessage :=
  match split_on "," text with
  | path :: segs =>
      if is_file_path path then
        kvs ← parse_segments segs;
        ident ← assoc "ID" kvs;
        c ← assoc "CPU" kvs ≫= parse_int;
        w ← assoc "WALL" kvs ≫= parse_int;
        Some (mkOut ident finished (Some path) (Some c) (Some w) text)
      else None
  | [] => None
  end.

(** Modelled from the spec: the failure shape of [parse_out_message], "a
    token beginning ERR_<CATEGORY> followed by whitespace, an identifier
    token, a colon, and a free-text reason". *)
Definition parse_failure (text : string) : option OutMessage :=
  rest ← strip_prefix "ERR_" text;
  let '(category, rest1) := span not_space rest in
  let '(blank, rest2) := span is_space rest1 in
  let '(token, rest3) := span is_id_char rest2 in
  match category, blank, token, rest3 with
  | String _ _, String _ _, String _ _, String c _ =>
      if Ascii.eqb c ":" then
        Some (mkOut (canonical_id token) failed None None None text)
      else None
  | _, _, _, _ => None
  end.

(** The form of the third message of [test_parse_out_message] (lines
    152-155 of the test file), and nothing wider: [ERR_<CATEGORY>],
    whitespace, the rejected request between double quotes, a colon and a
    reason, where the request holds the field [eventRangeID': u'<id>'].
    The id of the message is the id of that field. *)
Definition parse_quoted_request (text : string) : option OutMessage :=
  rest ← strip_prefix "ERR_" text;
  let '(category, rest1) := span not_space rest in
  let '(blank, rest2) := span is_space rest1 in
  match category, blank, rest2 with
  | String _ _, String _ _, String q quoted =>
      if Ascii.eqb q double_quote then
        let '(request, rest3) := span not_quote quoted in
        match rest3 with
        | String _ (String c _) =>
            if Ascii.eqb c ":" then
              after ← find_after request_field request;
              let '(ident, rest4) := span is_id_char after in
              match ident, rest4 with
              | String _ _, String a _ =>
                  if Ascii.eqb a "'" then
                    Some (mkOut ident failed None None None text)
                  else None
              | _, _ => None
              end
            else None
        | _ => None
        end
      else None
  | _, _, _ => None
  end.

(** Modelled from the spec: [ESProcess.parse_out_message], pinned by the
    three messages of [test_parse_out_message]. A line of no known form is
    reported as failed with an empty id and its raw text. *)
Definition parse_out_message (text : string) : OutMessage :=
  match parse_success text with
  | Some m => m
  | None =>
      match parse_failure text with
      | Some m => m
      | None =>
          match parse_quoted_request text with
          | Some m => m
          | None => mkOut "" failed None None None text
          end
      end
  end.

End Parser.

(** The messages of [TestESProcess.test_parse_out_message] and the sample
    lines of the specification. *)
Definition output_msg : string :=
  "/tmp/HITS.12164365._000300.pool.root.1.12164365-3616045203-10980024041-4138-8,ID:12164365-3616045203-10980024041-4138-8,CPU:288,WALL:303".

Definition sample_hits : string :=
  "/tmp/HITS.1.pool.root.1,ID:12164365-3616045203-10980024041-4138-8,CPU:288,WALL:303".


Definition error_msg2 : string :=
  "ERR_ATHENAMP_PARSE " +:+ String "034"
  ("u'LFN': u'eta0-25.evgen.pool.root',u'eventRangeID': u'130-2068634812-21368-1-4', u'startEvent': 5"
   +:+ String "034" ": Wrong format").

(** *** The two message shapes, stated on the text itself *)

(** The text of the [KEY:value] segments, each with its leading comma. *)
Fixpoint render_segments (kvs : list (string * string)) : string :=
  match kvs with
  | [] => ""
  | (k, v) :: kvs' => String "," (k +:+ String ":" (v +:+ render_segments kvs'))
  end.

Definition segment_text (kv : string * string) : string :=
  kv.1 +:+ String ":" kv.2.

(** A key holds neither comma nor colon, a value no comma. *)
Definition well_formed_segment (kv : string * string) : bool :=
  no_char "," kv.1 && no_char ":" kv.1 && no_char "," kv.2.

(** [text] is a file path followed by [KEY:value] segments among which
    [ID], [CPU] and [WALL] give [ident], [c] and [w]. *)
Definition success_shape (text path ident : string) (c w : Z) : Prop :=
  exists kvs : list (string * string),
    text = path +:+ render_segments kvs /\
    is_file_path path = true /\ no_char "," path = true /\
    forallb well_formed_segment kvs = true /\
    assoc "ID" kvs = Some ident /\
    assoc "CPU" kvs ≫= parse_int = Some c /\
    assoc "WALL" kvs ≫= parse_int = Some w.


(** [text] is [ERR_<category>], whitespace, a request between double
    quotes, a colon and a reason, and the text after the first
    [eventRangeID': u'] of the request is the id [ident] and a closing
    quote. *)
Definition quoted_request_shape (text ident : string) : Prop :=
  exists category blank request after reason : string,
    text = "ERR_" +:+ category +:+ blank
           +:+ String double_quote
                 (request +:+ String double_quote (String ":" reason)) /\
    category <> "" /\ forallb_str not_space category = true /\
    blank <> "" /\ forallb_str is_space blank = true /\
    forallb_str not_quote request = true /\
    find_after request_field request = Some (ident +:+ String "'" after) /\
    ident <> "" /\ forallb_str is_id_char ident = true.

(** The record of a failed message. *)
Definition failed_message (ident text : string) : OutMessage :=
  mkOut ident failed None None None text.


Lemma render_segments_split (a : string) (kvs : list (string * string)) :
  no_char "," a = true ->
  forallb well_formed_segment kvs = true ->
  split_on "," (a +:+ render_segments kvs) = a :: map segment_text kvs.
Proof.
  revert a. induction kvs as [|[k v] kvs IH]; intros a Ha Hwf.
  - rewrite split_on_app by done. cbn. by rewrite append_nil_r.
  - cbn in Hwf. apply andb_prop in Hwf as [Hkv Hwf].
    unfold well_formed_segment in Hkv. cbn in Hkv.
    apply andb_prop in Hkv as [[Hk1 Hk2]%andb_prop Hv].
    cbn [render_segments]. rewrite split_on_app by done.
    cbn [split_on]. rewrite Ascii.eqb_refl.
    replace (k +:+ String ":" (v +:+ render_segments kvs))
      with (segment_text (k, v) +:+ render_segments kvs).
    2:{ unfold segment_text. cbn. by rewrite append_assoc, append_cons. }
    rewrite IH; [by rewrite append_nil_r| |done].
    unfold segment_text, no_char in *. cbn. rewrite forallb_str_app.
    cbn. by rewrite Hk1, Hv.
Qed.

Lemma parse_segments_render (kvs : list (string * string)) :
  forallb well_formed_segment kvs = true ->
  parse_segments (map segment_text kvs) = Some kvs.
Proof.
  induction kvs as [|[k v] kvs IH]; intros Hwf; [done|].
  cbn in Hwf. apply andb_prop in Hwf as [Hkv Hwf].
  unfold well_formed_segment in Hkv. cbn in Hkv.
  apply andb_prop in Hkv as [[Hk1 Hk2]%andb_prop Hv].
  assert (Hp : partition_on ":" (segment_text (k, v)) = Some (k, v))
    by (by apply partition_on_app).
  cbn [map parse_segments]. rewrite Hp, (IH Hwf). done.
Qed.



(** *** The recognisers agree with the shapes *)

Lemma parse_success_complete (text path ident : string) (c w : Z) :
  success_shape text path ident c w ->
  parse_success text =
  Some (mkOut ident finished (Some path) (Some c) (Some w) text).
Proof.
  intros (kvs & Htext & Hpath & Hcomma & Hwf & Hid & Hcpu & Hwall).
  unfold parse_success.
  rewrite Htext at 1. rewrite render_segments_split by done.
  rewrite Hpath, parse_segments_render by done. cbn.
  rewrite Hid. cbn. rewrite Hcpu. cbn. by rewrite Hwall.
Qed.





Lemma parse_out_message_of_success (n : nat) (text path ident : string)
  (c w : Z) :
  success_shape text path ident c w ->
  parse_out_message n text =
  mkOut ident finished (Some path) (Some c) (Some w) text.
Proof.
  intros Hshape. unfold parse_out_message.
  by rewrite (parse_success_complete _ _ _ _ _ Hshape).
Qed.











(** *** Claims about [parse_out_message] *)

(** C4: every line of the success shape -- a file path followed by
    comma-separated [KEY:value] segments including [ID], [CPU] and [WALL] --
    is parsed to a record with status [finished], the id of the [ID] segment,
    the numbers of the [CPU] and [WALL] segments and the whole line as
    message; the sample line of the specification and the first message of
    [test_parse_out_message] give id 12164365-3616045203-10980024041-4138-8,
    cpu 288 and wall 303. *)
Theorem parse_out_message_success (n : nat) :
  (forall (text path ident : string) (c w : Z),
      success_shape text path ident c w ->
      status (parse_out_message n text) = finished /\
      id (parse_out_message n text) = ident /\
      cpu (parse_out_message n text) = Some c /\
      wall (parse_out_message n text) = Some w /\
      message (parse_out_message n text) = text) /\
  parse_out_message n sample_hits =
    mkOut "12164365-3616045203-10980024041-4138-8" finished
          (Some "/tmp/HITS.1.pool.root.1") (Some 288) (Some 303) sample_hits /\
  status (parse_out_message n output_msg) = finished /\
  id (parse_out_message n output_msg) =
    "12164365-3616045203-10980024041-4138-8".
Proof.
  split; [|by vm_compute].
  intros text path ident c w Hshape.
  by rewrite (parse_out_message_of_success n _ _ _ _ _ Hshape).
Qed.



Lemma parse_out_message_success_witness :
  success_shape sample_hits "/tmp/HITS.1.pool.root.1"
    "12164365-3616045203-10980024041-4138-8" 288 303 /\
  id (parse_out_message 5 sample_hits) =
    "12164365-3616045203-10980024041-4138-8".
Proof.
  assert (Hshape : success_shape sample_hits "/tmp/HITS.1.pool.root.1"
                     "12164365-3616045203-10980024041-4138-8" 288 303).
  { exists [("ID", "12164365-3616045203-10980024041-4138-8");
            ("CPU", "288"); ("WALL", "303")].
    repeat split; reflexivity. }
  split; [exact Hshape|].
  exact (proj1 (proj2 (proj1 (parse_out_message_success 5) _ _ _ _ _ Hshape))).
Defined.




(** The third message of [test_parse_out_message] is of the quoted form; a
    line that merely names the field is not. *)
Example error_msg2_quoted :
  quoted_request_shape error_msg2 "130-2068634812-21368-1-4" /\
  parse_out_message 5 "ERR_eventRangeID7" =
    failed_message "" "ERR_eventRangeID7".
Proof.
  split; [|reflexivity].
  exists "ATHENAMP_PARSE", " ",
    "u'LFN': u'eta0-25.evgen.pool.root',u'eventRangeID': u'130-2068634812-21368-1-4', u'startEvent': 5",
    ", u'startEvent': 5", " Wrong format".
  repeat split; (reflexivity || discriminate).
Qed.


(** *** The driver: hook slots, protocol loop and teardown *)

Inductive State : Type := INIT | SPAWNED | RUNNING | COMPLETED | FAILED | STOPPED.

(** What one turn of the loop finds: the child has exited with a code, the
    channel has failed, a line is waiting in the queue, or the bounded wait
    timed out. *)
Inductive Observation : Type :=
| ChildExit (code : Z)
| ChannelBroken
| Line (text : string)
| Timeout.

(** How the loop ends: with the exit code of the child, or by an exception. *)
Inductive LoopEnd : Type :=
| ChildExited (code : Z)
| Aborted (e : Py.exn).

Definition ChannelError : Py.exn :=
  Py.mkExn Py.ExceptionSubclass "ChannelError" "control channel failed".

Section Driver.

(** The hook object [H] and its event ranges are opaque to the driver. *)
Context {EventRange H : Type}.

(** The two bindable callables, as functions of the hook object. *)
Definition GetEventRanges : Type := Z -> H -> Py.result (list EventRange * H).
Definition HandleOutMessage : Type := OutMessage -> H -> Py.result H.

(** The specification leaves the wire formats open: which inbound lines are
    work requests, how a range is written on the wire, and how many ranges a
    request asks for are parameters. *)
Variable is_work_request : string -> bool.
Variable serialize : EventRange -> string.
Variable request_size : Z.
Variable canonical_segments : nat.

(** Modelled from the spec: the attributes of an [ESProcess] instance
    ([pilot/eventservice/esprocess.py] is not among the sources): its state,
    the terminal state the loop ended in, the two hook slots, what teardown
    has done, whether the hook last signalled more work, and the lines sent
    to the payload. *)
Record ESProcess := mkProcess {
  state : State;
  terminal : option State;
  get_event_ranges_hook : option GetEventRanges;
  handle_out_message_hook : option HandleOutMessage;
  channel_stopped : bool;
  child_reaped : bool;
  resources_released : bool;
  work_pending : bool;
  sent : list string
}.

(** Modelled from the spec: construction launches the child and starts the
    channel thread; the slots are unbound. *)
Definition construct : ESProcess :=
  mkProcess SPAWNED None None None false false false false [].

(** Modelled from the spec: the hook binding accessors, "pure accessors ...
    with no side effects beyond storage". *)
Definition set_get_event_ranges_hook (hook : GetEventRanges) (self : ESProcess)
  : ESProcess :=
  mkProcess (state self) (terminal self) (Some hook)
            (handle_out_message_hook self) (channel_stopped self)
            (child_reaped self) (resources_released self) (work_pending self)
            (sent self).

Definition get_get_event_ranges_hook (self : ESProcess)
  : option GetEventRanges :=
  get_event_ranges_hook self.

Definition set_handle_out_message_hook (hook : HandleOutMessage)
  (self : ESProcess) : ESProcess :=
  mkProcess (state self) (terminal self) (get_event_ranges_hook self)
            (Some hook) (channel_stopped self) (child_reaped self)
            (resources_released self) (work_pending self) (sent self).

Definition get_handle_out_message_hook (self : ESProcess)
  : option HandleOutMessage :=
  handle_out_message_hook self.

Definition set_state (st : State) (self : ESProcess) : ESProcess :=
  mkProcess st (terminal self) (get_event_ranges_hook self)
            (handle_out_message_hook self) (channel_stopped self)
            (child_reaped self) (resources_released self) (work_pending self)
            (sent self).

(** The lines of the injected ranges go out through the channel thread; an
    empty answer is the end-of-work signal. *)
Definition inject (ranges : list EventRange) (self : ESProcess) : ESProcess :=
  mkProcess (state self) (terminal self) (get_event_ranges_hook self)
            (handle_out_message_hook self) (channel_stopped self)
            (child_reaped self) (resources_released self)
            (match ranges with [] => false | _ :: _ => true end)
            (sent self ++ map serialize ranges).

(** Modelled from the spec: one inbound line. "On a work request from the
    payload, invokes the bound get_event_ranges hook, serializes each
    returned range into one outbound line, and sends it ... On any other
    inbound line, applies parse_out_message and forwards the resulting
    OutMessage to the bound handle_out_message hook." Calling an unbound
    slot is a [TypeError]. *)
Definition handle_line (text : string) (self : ESProcess) (hook : H)
  : Py.result (ESProcess * H) :=
  if is_work_request text then
    match get_event_ranges_hook self with
    | None => Py.Raises (Py.TypeError "'NoneType' object is not callable")
    | Some get =>
        match get request_size hook with
        | Py.Raises e => Py.Raises e
        | Py.Returns (ranges, hook') => Py.Returns (inject ranges self, hook')
        end
    end
  else
    match handle_out_message_hook self with
    | None => Py.Raises (Py.TypeError "'NoneType' object is not callable")
    | Some handle =>
        match handle (parse_out_message canonical_segments text) hook with
        | Py.Raises e => Py.Raises e
        | Py.Returns hook' => Py.Returns (self, hook')
        end
    end.

(** Modelled from the spec: the protocol loop over what its turns observe.
    The exit of the child is looked at first and ends the loop; [None] means
    that the observations ran out while the child was still running. *)
Fixpoint protocol_loop (obs : list Observation) (self : ESProcess) (hook : H)
  : option (LoopEnd * ESProcess * H) :=
  match obs with
  | [] => None
  | ChildExit code :: _ => Some (ChildExited code, self, hook)
  | ChannelBroken :: _ => Some (Aborted ChannelError, self, hook)
  | Timeout :: obs' => protocol_loop obs' self hook
  | Line text :: obs' =>
      match handle_line text self hook with
      | Py.Raises e => Some (Aborted e, self, hook)
      | Py.Returns (self', hook') => protocol_loop obs' self' hook'
      end
  end.

(** Modelled from the spec: "RUNNING->COMPLETED when the child exits with
    status zero and the driver observes no further pending work signaled by
    the hook. RUNNING->FAILED on nonzero child exit, channel failure, or an
    ... error the driver deems unrecoverable." *)
Definition terminal_state (e : LoopEnd) (self : ESProcess) : State :=
  match e with
  | ChildExited code =>
      if (code =? 0)%Z && negb (work_pending self) then COMPLETED else FAILED
  | Aborted _ => FAILED
  end.

(** Modelled from the spec: the cleanup step, "channel thread is stopped,
    child process is reaped (waited on), resources released". *)
Definition teardown (self : ESProcess) : ESProcess :=
  mkProcess STOPPED (terminal self) (get_event_ranges_hook self)
            (handle_out_message_hook self) true true true (work_pending self)
            (sent self).

Definition finish (e : LoopEnd) (self : ESProcess) : ESProcess :=
  mkProcess (terminal_state e self) (Some (terminal_state e self))
            (get_event_ranges_hook self) (handle_out_message_hook self)
            (channel_stopped self) (child_reaped self)
            (resources_released self) (work_pending self) (sent self).

(** Modelled from the spec: [ESProcess.run], the loop inside a
    [try]/[finally] whose [finally] part is [teardown]; an exception of the
    loop is raised again after the cleanup. *)
Definition run (obs : list Observation) (self : ESProcess) (hook : H)
  : option (Py.result unit * ESProcess * H) :=
  match protocol_loop obs (set_state RUNNING self) hook with
  | None => None
  | Some (e, self', hook') =>
      Some (match e with
            | ChildExited _ => Py.Returns tt
            | Aborted ex => Py.Raises ex
            end,
            teardown (finish e self'), hook')
  end.

(** Modelled from the spec: [ESManager.run] over a hook with the given two
    methods: build the driver, bind the two methods, run the driver, and
    report success "iff the driver's terminal state was COMPLETED"; an
    exception that unwinds from the driver is an overall failure. *)
Definition manager_run (get : GetEventRanges) (handle : HandleOutMessage)
  (obs : list Observation) (hook : H) : option (bool * ESProcess * H) :=
  let process :=
    set_handle_out_message_hook handle
      (set_get_event_ranges_hook get construct) in
  match run obs process hook with
  | None => None
  | Some (Py.Returns _, process', hook') =>
      Some (match terminal process' with
            | Some COMPLETED => true
            | _ => false
            end, process', hook')
  | Some (Py.Raises _, process', hook') => Some (false, process', hook')
  end.

(** Some turn of the loop sees the child gone or the channel broken. *)
Definition ends (obs : list Observation) : Prop :=
  Exists (fun o => match o with
                   | ChildExit _ | ChannelBroken => True
                   | _ => False
                   end) obs.

Lemma protocol_loop_ends (obs : list Observation) (self : ESProcess) (hook : H) :
  ends obs -> exists r, protocol_loop obs self hook = Some r.
Proof.
  unfold ends. intros Hends. revert self hook.
  induction obs as [|o obs IH]; intros self hook.
  - by apply Exists_nil in Hends.
  - destruct o as [code| |text|]; cbn.
    + by eexists.
    + by eexists.
    + destruct (handle_line text self hook) as [[self' hook']|e].
      * apply IH. by apply Exists_cons in Hends as [[]|].
      * by eexists.
    + apply IH. by apply Exists_cons in Hends as [[]|].
Qed.

Lemma teardown_stopped (self : ESProcess) :
  state (teardown self) = STOPPED /\
  channel_stopped (teardown self) = true /\
  child_reaped (teardown self) = true /\
  resources_released (teardown self) = true /\
  terminal (teardown self) = terminal self.
Proof. done. Qed.

Lemma terminal_state_cases (e : LoopEnd) (self : ESProcess) :
  terminal_state e self = COMPLETED \/ terminal_state e self = FAILED.
Proof.
  destruct e as [code|ex]; cbn; [|by right].
  destruct ((code =? 0)%Z && negb (work_pending self)); [by left|by right].
Qed.

(** *** Claims about the driver *)

(** C8: the hook binding accessors are round trips: after
    [set_get_event_ranges_hook f] the getter returns [f] itself, likewise for
    the [handle_out_message] pair; a setter changes nothing but its own slot,
    and a getter only reads. *)
Theorem hook_accessors_round_trip
  (f : GetEventRanges) (g : HandleOutMessage) (self : ESProcess) :
  get_get_event_ranges_hook (set_get_event_ranges_hook f self) = Some f /\
  get_handle_out_message_hook (set_handle_out_message_hook g self) = Some g /\
  set_get_event_ranges_hook f self =
    mkProcess (state self) (terminal self) (Some f)
              (get_handle_out_message_hook self) (channel_stopped self)
              (child_reaped self) (resources_released self)
              (work_pending self) (sent self) /\
  set_handle_out_message_hook g self =
    mkProcess (state self) (terminal self) (get_get_event_ranges_hook self)
              (Some g) (channel_stopped self) (child_reaped self)
              (resources_released self) (work_pending self) (sent self).
Proof. done. Qed.

(** C2: every exit path of [run] ends in STOPPED. Whenever some turn of the
    loop sees the child gone or the channel broken, [run] comes back; and
    however it comes back -- the child exited with zero or not, the channel
    failed, or a hook raised inside the loop -- the driver is STOPPED with
    the channel thread stopped, the child reaped and the resources released,
    its terminal state is COMPLETED or FAILED, and FAILED when an exception
    unwinds. The Manager then reports success exactly when no exception
    unwound and the terminal state was COMPLETED. *)
Theorem run_reaches_stopped
  (obs : list Observation) (self : ESProcess) (hook : H) :
  (ends obs -> exists r, run obs self hook = Some r) /\
  (forall (r : Py.result unit) (self' : ESProcess) (hook' : H),
      run obs self hook = Some (r, self', hook') ->
      state self' = STOPPED /\
      channel_stopped self' = true /\
      child_reaped self' = true /\
      resources_released self' = true /\
      (terminal self' = Some COMPLETED \/ terminal self' = Some FAILED) /\
      (forall e : Py.exn, r = Py.Raises e -> terminal self' = Some FAILED)) /\
  (forall (get : GetEventRanges) (handle : HandleOutMessage),
      match run obs (set_handle_out_message_hook handle
                       (set_get_event_ranges_hook get construct)) hook with
      | None => manager_run get handle obs hook = None
      | Some (r, process', hook') =>
          exists success : bool,
            manager_run get handle obs hook = Some (success, process', hook') /\
            state process' = STOPPED /\
            (success = true <->
             r = Py.Returns tt /\ terminal process' = Some COMPLETED)
      end).
Proof.
  split; [|split].
  - intros Hends. unfold run.
    destruct (protocol_loop_ends obs (set_state RUNNING self) hook Hends)
      as [[[e self'] hook'] ->].
    by eexists.
  - intros r self' hook'. unfold run.
    destruct (protocol_loop obs (set_state RUNNING self) hook)
      as [[[e self1] hook1]|]; [|done].
    intros [= <- <- <-]. cbn.
    repeat split; try done.
    + destruct (terminal_state_cases e self1) as [-> | ->]; [by left|by right].
    + intros ex Hex. by destruct e.
  - intros get handle. unfold manager_run.
    destruct (run obs _ hook) as [[[r process'] hook']|] eqn:Hrun; [|done].
    assert (Hst : state process' = STOPPED).
    { unfold run in Hrun.
      destruct (protocol_loop obs _ hook) as [[[e self1] hook1]|]; [|done].
      by injection Hrun as <- <- <-. }
    destruct r as [[]|e].
    + destruct (terminal process') as [[]|] eqn:Hterm;
        eexists; (split; [done|]); (split; [done|]);
        split; try done; by intros [_ [=]].
    + exists false. repeat split; try done. by intros [[=] _].
Qed.

End Driver.

(** A run against the test hook: a work request, the report of the injected
    range, a second request answered by the empty list, and a clean exit. *)
Definition test_get_event_ranges
  : @GetEventRanges string (@Hook.TestESHook string OutMessage unit) :=
  fun n hook => Py.Returns (Hook.get_event_ranges n hook).

Definition test_handle_out_message
  : @HandleOutMessage (@Hook.TestESHook string OutMessage unit) :=
  fun m hook => Py.Returns (Hook.handle_out_message m hook).

Definition test_observations : list Observation :=
  [Line "request"; Line sample_hits; Timeout; Line "request"; ChildExit 0].

Definition test_hook : @Hook.TestESHook string OutMessage unit :=
  Hook.init tt ["12164365-3616045203-10980024041-4138-8"].

(** The assertions of [test_run_es] on this run: as many outputs as injected
    ranges, and at least one. *)
Example test_run_es :
  match manager_run (String.eqb "request") (fun range => range) 1 5
          test_get_event_ranges test_handle_out_message
          test_observations test_hook with
  | Some (success, process, hook) =>
      success = true /\
      length (Hook.get_injected_event_ranges hook) =
        length (Hook.get_outputs hook) /\
      length (Hook.get_outputs hook) <> 0%nat /\
      map id (Hook.get_outputs hook) = Hook.get_injected_event_ranges hook
  | None => False
  end.
Proof. by vm_compute. Qed.

Lemma run_reaches_stopped_witness :
  ends test_observations /\
  exists r,
    run (String.eqb "request") (fun range => range) 1 5 test_observations
        (set_handle_out_message_hook test_handle_out_message
           (set_get_event_ranges_hook test_get_event_ranges construct))
        test_hook = Some r.
Proof.
  assert (Hends : ends test_observations).
  { unfold ends, test_observations. do 4 apply Exists_cons_tl.
    by apply Exists_cons_hd. }
  split; [exact Hends|].
  exact (proj1 (run_reaches_stopped (String.eqb "request")
                  (fun range => range) 1 5 test_observations _ test_hook)
               Hends).
Defined.

End ESProcess.

(** ** The generic HPC workflow ([pilot/workflow/generic_hpc.py]) *)

Module GenericHpc.

Local Open Scope string_scope.

Section Workflow.

(** The outside world (file system, clock, processes, imported modules),
    Python floats and open file objects are opaque. *)
Context {W F Handle : Type}.

(** The values stored in the work report and in the job description. *)
#[warnings="-register-all"]
Inductive pyval : Type :=
| PyNone
| PyStr (s : string)
| PyInt (z : Z)
| PyFloat (f : F)
| PyDict (items : list (string * pyval)).

(** [d[key]] on a value: [KeyError] on a missing key, [TypeError] when the
    value is no dictionary. *)
Definition KeyError (key : string) : Py.exn :=
  Py.mkExn Py.ExceptionSubclass "KeyError" key.

Definition subscript (v : pyval) (key : string) : Py.result pyval :=
  match v with
  | PyDict items =>
      match list_find (fun kv => String.eqb kv.1 key = true) items with
      | Some (_, (_, x)) => Py.Returns x
      | None => Py.Raises (KeyError key)
      end
  | _ => Py.Raises (Py.TypeError "object has no attribute '__getitem__'")
  end.

(** The attributes of the job object that [run] reads or writes. *)
Record Job := mkJob {
  jobid : string;
  script : string;
  script_parameters : string;
  job_state : string;
  startTime : string;
  endTime : string;
  exitcode : Z;
  output_files : list (string * pyval);
  log_file : string
}.

Record Args := mkArgs {
  harvester_workdir : option string;
  hpc_resource : string;
  pilot_user : string
}.

(** [config.Harvester] and [config.Payload]. *)
Record Config := mkConfig {
  workerAttributesFile : string;
  StageOutnFile : string;
  jobreport : string;
  payloadstdout : string;
  payloadstderr : string
}.

(** [traces.pilot]. *)
Record Traces := mkTraces { pilot : gmap string Z }.

(** A call into code outside this file acts on the world and returns or
    raises. *)
Definition Ext (A : Type) : Type := W -> Py.result A * W.

(** Everything [run] calls that is defined outside [generic_hpc.py]: the
    harvester and file helpers of [pilot.util], the resource and user modules
    imported by name, and the standard library. [SUCCESS] and [FAILURE] are
    the constants of [pilot.util.constants]. None of them is taken to change
    the dictionaries handed to it. *)
Record Externals := mkExternals {
  SUCCESS : Z;
  FAILURE : Z;
  getcwd : Ext string;
  get_initial_work_report : Ext (gmap string pyval);
  signal_signal : Ext unit;
  import_resource : string -> Ext unit;
  import_user : string -> Ext unit;
  get_job : string -> Ext (Job * Z);
  set_job_workdir : Job -> string -> Ext string;
  publish_work_report : gmap string pyval -> string -> Ext unit;
  get_setup : Ext (list string);
  set_scratch_workdir : Job -> string -> Ext string;
  command_fix : string -> string -> Ext string;
  open_w : string -> Ext Handle;
  utcnow : Ext string;
  asctime : Ext string;
  time_time : Ext F;
  os_times : Ext (F * F * F * F * F);
  execute : string -> Handle -> Handle -> Ext Z;
  close : Handle -> Ext unit;
  path_exists : string -> Ext bool;
  read_json : string -> Ext pyval;
  parse_jobreport_data : pyval -> Ext (gmap string pyval);
  process_jobreport : string -> string -> string -> Ext unit;
  postprocess_workdir : string -> Ext unit;
  remove_redundant_files : string -> list string -> Ext unit;
  tar_files : string -> list string -> string -> Ext Z;
  copy : string -> string -> Ext unit;
  chdir : string -> Ext unit;
  abspath : string -> Ext string;
  getsize : string -> Ext Z;
  write_json : string -> string -> list (list (string * pyval)) -> Ext unit;
  log_exception : W -> W;
  fsub : F -> F -> F;
  float_nonzero : F -> bool;
  isinstance_IOError : Py.exn -> bool;
  FileHandlingFailure : string -> Py.exn
}.

Variable ext : Externals.
Variable config : Config.

(** The local variables of [run] that its [except] clause reads. *)
Record Locals := mkLocals {
  work_report : gmap string pyval;
  worker_attributes_file : string;
  traces : option Traces
}.

(** How a piece of the [try] block ends: it falls through with a value,
    raises, or executes [return]. *)
Inductive Outcome (A : Type) : Type :=
| Normal (a : A) (l : Locals) (w : W)
| Raised (e : Py.exn) (l : Locals) (w : W)
| Returned (tr : Traces) (l : Locals) (w : W).

Arguments Normal {A} a l w.
Arguments Raised {A} e l w.
Arguments Returned {A} tr l w.

Definition M (A : Type) : Type := Locals -> W -> Outcome A.

Definition ret {A : Type} (a : A) : M A := fun l w => Normal a l w.

Definition bind {A B : Type} (m : M A) (k : A -> M B) : M B :=
  fun l w =>
    match m l w with
    | Normal a l' w' => k a l' w'
    | Raised e l' w' => Raised e l' w'
    | Returned tr l' w' => Returned tr l' w'
    end.

Definition raise {A : Type} (e : Py.exn) : M A := fun l w => Raised e l w.

Definition return_ {A : Type} (tr : Traces) : M A := fun l w => Returned tr l w.

Definition call {A : Type} (op : Ext A) : M A :=
  fun l w =>
    match op w with
    | (Py.Returns a, w') => Normal a l w'
    | (Py.Raises e, w') => Raised e l w'
    end.

Definition lift {A : Type} (r : Py.result A) : M A :=
  fun l w =>
    match r with
    | Py.Returns a => Normal a l w
    | Py.Raises e => Raised e l w
    end.

Definition get_locals : M Locals := fun l w => Normal l l w.

Definition set_work_report (key : string) (v : pyval) : M unit :=
  fun l w =>
    Normal tt (mkLocals (<[key := v]> (work_report l))
                        (worker_attributes_file l) (traces l)) w.

Definition update_work_report (d : gmap string pyval) : M unit :=
  fun l w =>
    Normal tt (mkLocals (d ∪ work_report l) (worker_attributes_file l)
                        (traces l)) w.

Definition set_worker_attributes_file (path : string) : M unit :=
  fun l w => Normal tt (mkLocals (work_report l) path (traces l)) w.

Definition set_traces (tr : Traces) : M unit :=
  fun l w =>
    Normal tt (mkLocals (work_report l) (worker_attributes_file l) (Some tr)) w.

Definition UnboundLocalError : Py.exn :=
  Py.mkExn Py.ExceptionSubclass "UnboundLocalError"
           "local variable 'traces' referenced before assignment".

(** Reading the local [traces]. *)
Definition get_traces : M Traces :=
  fun l w =>
    match traces l with
    | Some tr => Normal tr l w
    | None => Raised UnboundLocalError l w
    end.

(** [traces.pilot['state'] = value]. *)
Definition set_pilot_state (value : Z) : M unit :=
  bind get_traces (fun tr => set_traces (mkTraces (<["state" := value]> (pilot tr)))).

(** [publish_work_report(work_report, worker_attributes_file)] with the
    current values of the two locals. *)
Definition publish : M unit :=
  fun l w =>
    call (publish_work_report ext (work_report l) (worker_attributes_file l))
         l w.

(** [try: m except <classes>: handler]. *)
Definition try_except {A : Type} (m : M A) (catches : Py.exn -> bool)
  (handler : Py.exn -> M A) : M A :=
  fun l w =>
    match m l w with
    | Raised e l' w' => if catches e then handler e l' w' else Raised e l' w'
    | other => other
    end.

(** [try: m finally: cleanup]. *)
Definition try_finally {A : Type} (m : M A) (cleanup : M unit) : M A :=
  fun l w =>
    match m l w with
    | Normal a l' w' =>
        match cleanup l' w' with
        | Normal _ l'' w'' => Normal a l'' w''
        | Raised e l'' w'' => Raised e l'' w''
        | Returned tr l'' w'' => Returned tr l'' w''
        end
    | Raised e l' w' =>
        match cleanup l' w' with
        | Normal _ l'' w'' => Raised e l'' w''
        | Raised e' l'' w'' => Raised e' l'' w''
        | Returned tr l'' w'' => Returned tr l'' w''
        end
    | Returned tr l' w' =>
        match cleanup l' w' with
        | Normal _ l'' w'' => Returned tr l'' w''
        | Raised e l'' w'' => Raised e l'' w''
        | Returned tr' l'' w'' => Returned tr' l'' w''
        end
    end.

Notation "x <- m ;; k" := (bind m (fun x => k))
  (at level 100, m at next level, right associativity, only parsing).
Notation "m1 ;;; k" := (bind m1 (fun _ => k))
  (at level 100, right associativity, only parsing).

(** [for x in xs: body x]. *)
Fixpoint for_each {A : Type} (xs : list A) (body : A -> M unit) : M unit :=
  match xs with
  | [] => ret tt
  | x :: xs' => body x ;;; for_each xs' body
  end.

(** The truth value of an object. *)
Definition truthy (v : pyval) : bool :=
  match v with
  | PyNone => false
  | PyStr s => negb (String.eqb s "")
  | PyInt z => negb (z =? 0)%Z
  | PyFloat f => float_nonzero ext f
  | PyDict items => match items with [] => false | _ :: _ => true end
  end.

Definition AttributeError (text : string) : Py.exn :=
  Py.mkExn Py.ExceptionSubclass "AttributeError" text.

(** [copy_output(job, job_scratch_dir, work_dir)]. *)
Definition copy_output (job : Job) (job_scratch_dir work_dir : string) : M Z :=
  cp_start <- call (time_time ext) ;;
  try_finally
    (try_except
       (for_each (map fst (output_files job)) (fun outfile =>
          found <- call (path_exists ext outfile) ;;
          if found : bool then
            call (copy ext (Text.os_path_join job_scratch_dir outfile)
                       (Text.os_path_join work_dir outfile))
          else ret tt) ;;;
        call (chdir ext work_dir))
       (isinstance_IOError ext)
       (fun _ => raise (FileHandlingFailure ext
                          "Copy from scratch dir to access point failed")))
    (now <- call (time_time ext) ;; ret tt) ;;;
  ret 0%Z.

(** The [guid] entry of a file description in [declare_output]. *)
Definition declare_guid (report : gmap string pyval) (outfile : string)
  (description : pyval) : Py.result (list (string * pyval)) :=
  match description with
  | PyDict items =>
      if existsb (fun kv => String.eqb kv.1 "guid") items then
        match subscript description "guid" with
        | Py.Returns guid => Py.Returns [("guid", guid)]
        | Py.Raises e => Py.Raises e
        end
      else
        match report !! "outputfiles" with
        | None => Py.Raises (KeyError "outputfiles")
        | Some files =>
            if truthy files then
              match subscript files outfile with
              | Py.Raises e => Py.Raises e
              | Py.Returns entry =>
                  if truthy entry then
                    match subscript entry "guid" with
                    | Py.Returns guid => Py.Returns [("guid", guid)]
                    | Py.Raises e => Py.Raises e
                    end
                  else Py.Returns []
              end
            else Py.Returns []
        end
  | _ => Py.Raises (AttributeError "object has no attribute 'keys'")
  end.

(** The loop of [declare_output]: the descriptions collected so far and the
    job, whose state the loop may set to failed. *)
Fixpoint declare_files (files : list (string * pyval)) (job : Job)
  (report : gmap string pyval) (acc : list (list (string * pyval)))
  : M (list (list (string * pyval)) * Job) :=
  match files with
  | [] => ret (acc, job)
  | (outfile, description) :: files' =>
      found <- call (path_exists ext outfile) ;;
      if found : bool then
        let kind := if String.eqb outfile (log_file job) then "log" else "output" in
        path <- call (abspath ext outfile) ;;
        fsize <- call (getsize ext outfile) ;;
        guid <- lift (declare_guid report outfile description) ;;
        declare_files files' job report
          (acc ++ [[("type", PyStr kind); ("path", PyStr path);
                    ("fsize", PyInt fsize)] ++ guid])%list
      else
        declare_files files'
          (mkJob (jobid job) (script job) (script_parameters job) "failed"
                 (startTime job) (endTime job) (exitcode job)
                 (output_files job) (log_file job))
          report acc
  end.

(** [declare_output(job, work_report, worker_stageout_declaration)]. *)
Definition declare_output (job : Job) (report : gmap string pyval)
  (worker_stageout_declaration : string) : M Job :=
  declared <- declare_files (output_files job) job report [] ;;
  let '(out_file_report, job') := declared in
  match out_file_report with
  | [] => ret job'
  | _ :: _ =>
      call (write_json ext worker_stageout_declaration (jobid job)
                       out_file_report) ;;;
      ret job'
  end.

Definition set_job_state (st : string) (job : Job) : Job :=
  mkJob (jobid job) (script job) (script_parameters job) st (startTime job)
        (endTime job) (exitcode job) (output_files job) (log_file job).

Definition set_job_startTime (t : string) (job : Job) : Job :=
  mkJob (jobid job) (script job) (script_parameters job) (job_state job) t
        (endTime job) (exitcode job) (output_files job) (log_file job).

Definition set_job_endTime (t : string) (job : Job) : Job :=
  mkJob (jobid job) (script job) (script_parameters job) (job_state job)
        (startTime job) t (exitcode job) (output_files job) (log_file job).

Definition set_job_exitcode (code : Z) (job : Job) : Job :=
  mkJob (jobid job) (script job) (script_parameters job) (job_state job)
        (startTime job) (endTime job) code (output_files job) (log_file job).

(** [xs.remove(x)]: drop the first occurrence. *)
Fixpoint remove_first (x : string) (xs : list string) : list string :=
  match xs with
  | [] => []
  | y :: xs' => if String.eqb y x then xs' else y :: remove_first x xs'
  end.

(** The statements of the [try] block of [run], in source order; the calls
    to [logger] are left out, except for the arguments they evaluate. *)
Definition try_block (args : Args) (communication_point : string) : M unit :=
  let worker_stageout_declaration := StageOutnFile config in
  let payload_report_file := jobreport config in
  let payload_stdout_file := payloadstdout config in
  let payload_stderr_file := payloadstderr config in
  call (signal_signal ext) ;;;
  set_traces (mkTraces {[ "state" := SUCCESS ext; "nr_jobs" := 0%Z ]}) ;;;
  if String.eqb (hpc_resource args) "" then
    set_pilot_state (FAILURE ext) ;;;
    tr <- get_traces ;;
    return_ tr
  else
    call (import_resource ext (hpc_resource args)) ;;;
    call (import_user ext (Text.lower (pilot_user args))) ;;;
    got <- call (get_job ext communication_point) ;;
    let '(job, rank) := got in
    work_dir <- call (set_job_workdir ext job communication_point) ;;
    set_work_report "workdir" (PyStr work_dir) ;;;
    l <- get_locals ;;
    set_worker_attributes_file
      (Text.os_path_join work_dir (worker_attributes_file l)) ;;;
    let job := set_job_state "starting" job in
    set_work_report "jobStatus" (PyStr (job_state job)) ;;;
    publish ;;;
    call (get_setup ext) ;;;
    setup <- call (get_setup ext) ;;
    let setup_str := Text.join_str "; " setup in
    job_scratch_dir <- call (set_scratch_workdir ext job work_dir) ;;
    let my_command :=
      Text.join_str " " [script job; script_parameters job] in
    my_command <- call (command_fix ext my_command job_scratch_dir) ;;
    let my_command := setup_str +:+ my_command in
    payloadstdout <- call (open_w ext payload_stdout_file) ;;
    payloadstderr <- call (open_w ext payload_stderr_file) ;;
    let job := set_job_state "running" job in
    set_work_report "jobStatus" (PyStr (job_state job)) ;;;
    now <- call (utcnow ext) ;;
    set_work_report "startTime" (PyStr now) ;;;
    start_time <- call (asctime ext) ;;
    now <- call (utcnow ext) ;;
    let job := set_job_startTime now job in
    publish ;;;
    stime <- call (time_time ext) ;;
    t0 <- call (os_times ext) ;;
    exit_code <- call (execute ext my_command payloadstdout payloadstderr) ;;
    t1 <- call (os_times ext) ;;
    now_f <- call (time_time ext) ;;
    let exetime := fsub ext now_f stime in
    end_time <- call (asctime ext) ;;
    let t_tot := fsub ext (t1.1.1.2) (t0.1.1.2) in
    now <- call (utcnow ext) ;;
    let job := set_job_endTime now job in
    call (close ext payloadstdout) ;;;
    call (close ext payloadstderr) ;;;
    let job :=
      set_job_state (if (exit_code =? 0)%Z then "finished" else "failed") job in
    let job := set_job_exitcode exit_code job in
    set_work_report "startTime" (PyStr (startTime job)) ;;;
    set_work_report "endTime" (PyStr (endTime job)) ;;;
    set_work_report "jobStatus" (PyStr (job_state job)) ;;;
    set_work_report "cpuConsumptionTime" (PyFloat t_tot) ;;;
    set_work_report "transExitCode" (PyInt (exitcode job)) ;;;
    has_report <- call (path_exists ext payload_report_file) ;;
    (if has_report : bool then
       json <- call (read_json ext payload_report_file) ;;
       payload_report <- call (parse_jobreport_data ext json) ;;
       update_work_report payload_report ;;;
       call (process_jobreport ext payload_report_file job_scratch_dir work_dir)
     else ret tt) ;;;
    call (postprocess_workdir ext job_scratch_dir) ;;;
    let protectedfiles := map fst (output_files job) in
    let protectedfiles :=
      if existsb (String.eqb (log_file job)) protectedfiles
      then remove_first (log_file job) protectedfiles
      else protectedfiles in
    l <- get_locals ;;
    let protectedfiles :=
      (protectedfiles
       ++ [worker_attributes_file l; worker_stageout_declaration])%list in
    call (remove_redundant_files ext job_scratch_dir protectedfiles) ;;;
    res <- call (tar_files ext job_scratch_dir protectedfiles (log_file job)) ;;
    (if (0 <? res)%Z then raise (FileHandlingFailure ext "Log file tar failed")
     else ret tt) ;;;
    (if negb (String.eqb job_scratch_dir work_dir)
     then copy_output job job_scratch_dir work_dir ;;; ret tt
     else ret tt) ;;;
    l <- get_locals ;;
    declare_output job (work_report l) worker_stageout_declaration ;;;
    publish ;;;
    set_pilot_state (SUCCESS ext).

(** [except Exception as e:] catches the subclasses of [Exception]. *)
Definition is_Exception (e : Py.exn) : bool :=
  match Py.exn_kind e with
  | Py.ExceptionSubclass => true
  | Py.BaseExceptionOnly => false
  end.

(** The body of the [except Exception as e] clause. *)
Definition except_clause (e : Py.exn) : M unit :=
  set_work_report "jobStatus" (PyStr "failed") ;;;
  set_work_report "exitMsg" (PyStr (Py.str e)) ;;;
  publish ;;;
  (fun l w => Normal tt l (log_exception ext w)) ;;;
  set_pilot_state (FAILURE ext).

(** How [run] ends: it returns the traces, or an exception leaves it. The
    locals at the return are kept for the statements about them. *)
Inductive RunResult : Type :=
| RunReturns (tr : Traces) (l : Locals) (w : W)
| RunRaises (e : Py.exn) (w : W).

(** The value of [communication_point]. *)
Definition communication_point_of (args : Args) : Ext string :=
  match harvester_workdir args with
  | Some dir => if String.eqb dir "" then getcwd ext else fun w => (Py.Returns dir, w)
  | None => getcwd ext
  end.

(** The [try] statement with its [except] clause and the final
    [return traces]. *)
Definition guarded (args : Args) (communication_point : string) (l : Locals)
  (w : W) : RunResult :=
  match try_except (try_block args communication_point) is_Exception
                   except_clause l w with
  | Normal _ l' w' =>
      match traces l' with
      | Some tr => RunReturns tr l' w'
      | None => RunRaises UnboundLocalError w'
      end
  | Raised e _ w' => RunRaises e w'
  | Returned tr l' w' => RunReturns tr l' w'
  end.

(** [run(args)]. *)
Definition run (args : Args) (w : W) : RunResult :=
  match communication_point_of args w with
  | (Py.Raises e, w1) => RunRaises e w1
  | (Py.Returns communication_point, w1) =>
      match get_initial_work_report ext w1 with
      | (Py.Raises e, w2) => RunRaises e w2
      | (Py.Returns report, w2) =>
          guarded args communication_point
                  (mkLocals report (workerAttributesFile config) None) w2
      end
  end.

(** The work report that the [except] clause publishes for [e]. *)
Definition failed_report (e : Py.exn) (l : Locals) : gmap string pyval :=
  <["exitMsg" := PyStr (Py.str e)]>
    (<["jobStatus" := PyStr "failed"]> (work_report l)).

Definition failed_traces (tr : Traces) : Traces :=
  mkTraces (<["state" := FAILURE ext]> (pilot tr)).

(** *** The [except] clause, step by step *)

Lemma except_clause_published (e : Py.exn) (l : Locals) (w w' : W)
  (tr : Traces) :
  traces l = Some tr ->
  publish_work_report ext (failed_report e l) (worker_attributes_file l) w
    = (Py.Returns tt, w') ->
  except_clause e l w =
  Normal tt (mkLocals (failed_report e l) (worker_attributes_file l)
                      (Some (failed_traces tr)))
         (log_exception ext w').
Proof.
  intros Htr Hpub.
  unfold except_clause, bind, set_work_report, publish, call,
    set_pilot_state, bind, get_traces, set_traces.
  cbn. fold (failed_report e l). by rewrite Hpub, Htr.
Qed.

Lemma except_clause_publish_raises (e e' : Py.exn) (l : Locals) (w w' : W) :
  publish_work_report ext (failed_report e l) (worker_attributes_file l) w
    = (Py.Raises e', w') ->
  except_clause e l w =
  Raised e' (mkLocals (failed_report e l) (worker_attributes_file l) (traces l))
         w'.
Proof.
  intros Hpub.
  unfold except_clause, bind, set_work_report, publish, call. cbn.
  fold (failed_report e l). by rewrite Hpub.
Qed.

(** *** Claim about [run] *)

(** C9, as the code has it: let a statement of the [try] block raise [e],
    a subclass of [Exception], when [traces] has been assigned. Then [run]
    enters the [except] clause, sets [work_report['jobStatus']] to 'failed'
    and [work_report['exitMsg']] to [str(e)] and calls [publish_work_report]
    with that report and the current attributes file. When this call returns,
    [run] sets [traces.pilot['state']] to FAILURE and returns [traces]; when
    it raises, its exception leaves [run]. An exception that is no subclass
    of [Exception] leaves [run] as it is. *)
Theorem run_except_clause (args : Args) (w0 w1 w2 w : W)
  (communication_point : string) (report : gmap string pyval)
  (e : Py.exn) (l : Locals) (tr : Traces)
  (Hpoint : communication_point_of args w0 = (Py.Returns communication_point, w1))
  (Hreport : get_initial_work_report ext w1 = (Py.Returns report, w2))
  (Hraised : try_block args communication_point
               (mkLocals report (workerAttributesFile config) None) w2
             = Raised e l w)
  (Htraces : traces l = Some tr) :
  (is_Exception e = true ->
   forall w' : W,
     publish_work_report ext (failed_report e l) (worker_attributes_file l) w
       = (Py.Returns tt, w') ->
     run args w0 =
       RunReturns (failed_traces tr)
                  (mkLocals (failed_report e l) (worker_attributes_file l)
                            (Some (failed_traces tr)))
                  (log_exception ext w') /\
     failed_report e l !! "jobStatus" = Some (PyStr "failed") /\
     failed_report e l !! "exitMsg" = Some (PyStr (Py.str e)) /\
     pilot (failed_traces tr) !! "state" = Some (FAILURE ext)) /\
  (is_Exception e = true ->
   forall (e' : Py.exn) (w' : W),
     publish_work_report ext (failed_report e l) (worker_attributes_file l) w
       = (Py.Raises e', w') ->
     run args w0 = RunRaises e' w') /\
  (is_Exception e = false -> run args w0 = RunRaises e w).
Proof.
  unfold run. rewrite Hpoint, Hreport. unfold guarded, try_except.
  rewrite Hraised. split; [|split].
  - intros Hexc w' Hpub. rewrite Hexc.
    rewrite (except_clause_published e l w w' tr Htraces Hpub).
    cbn [traces]. split; [done|]. split; [|split].
    + unfold failed_report. rewrite lookup_insert_ne by done.
      by rewrite lookup_insert_eq.
    + unfold failed_report. by rewrite lookup_insert_eq.
    + unfold failed_traces. cbn. by rewrite lookup_insert_eq.
  - intros Hexc e' w' Hpub. rewrite Hexc.
    by rewrite (except_clause_publish_raises e e' l w w' Hpub).
  - by intros ->.
Qed.

End Workflow.

Arguments Normal {W F A} a l w.
Arguments Raised {W F A} e l w.
Arguments Returned {W F A} tr l w.

(** *** A small world to run the workflow in

    The world is the list of attribute files published so far; floats and
    file objects carry no information. Two switches make [get_job] and
    [publish_work_report] fail. *)

Definition sample_job : @Job unit :=
  mkJob "4242" "run.sh" "--events 10" "" "" "" 0
        [("out.root", PyDict [("guid", PyStr "guid-1")])] "log.tgz".

Definition IOError : Py.exn :=
  Py.mkExn Py.ExceptionSubclass "IOError" "Permission denied".

Definition NoJob : Py.exn :=
  Py.mkExn Py.ExceptionSubclass "Exception" "no job found".

Definition done_ {A : Type} (a : A) : @Ext (list string) A :=
  fun w => (Py.Returns a, w).

Definition sample_ext (job_fails publish_fails : bool)
  : @Externals (list string) unit unit :=
  mkExternals
    0 1
    (done_ "/cwd")
    (done_ {[ "jobStatus" := PyStr "starting" ]})
    (done_ tt)
    (fun _ => done_ tt)
    (fun _ => done_ tt)
    (fun _ w => if job_fails then (Py.Raises NoJob, w)
                else (Py.Returns (sample_job, 0%Z), w))
    (fun _ _ => done_ "/work")
    (fun _ file w => if publish_fails then (Py.Raises IOError, w)
                     else (Py.Returns tt, (w ++ [file])%list))
    (done_ ["module load python"])
    (fun _ _ => done_ "/scratch")
    (fun command _ => done_ command)
    (fun _ => done_ tt)
    (done_ "2018-01-01 00:00:00")
    (done_ "Mon Jan  1 00:00:00 2018")
    (done_ tt)
    (done_ (tt, tt, tt, tt, tt))
    (fun _ _ _ => done_ 0%Z)
    (fun _ => done_ tt)
    (fun _ => done_ true)
    (fun _ => done_ (PyDict []))
    (fun _ => done_ ∅)
    (fun _ _ _ => done_ tt)
    (fun _ => done_ tt)
    (fun _ _ => done_ tt)
    (fun _ _ _ => done_ 0%Z)
    (fun _ _ => done_ tt)
    (fun _ => done_ tt)
    (fun path => done_ path)
    (fun _ => done_ 1%Z)
    (fun _ _ _ => done_ tt)
    (fun w => w)
    (fun _ _ => tt)
    (fun _ => false)
    (fun e => String.eqb (Py.exn_name e) "IOError")
    (fun text => Py.mkExn Py.ExceptionSubclass "FileHandlingFailure" text).

Definition sample_config : Config :=
  mkConfig "worker_attributes.json" "worker_stageout.json" "jobReport.json"
           "payload.stdout" "payload.stderr".

Definition sample_args : Args := mkArgs None "titan" "ATLAS".

Definition sample_traces : Traces :=
  mkTraces {[ "state" := 0%Z; "nr_jobs" := 0%Z ]}.

(** With everything in order the workflow finishes, publishes three times
    and returns SUCCESS. *)
Example run_all_done :
  match run (sample_ext false false) sample_config sample_args [] with
  | RunReturns tr l w =>
      pilot tr !! "state" = Some 0%Z /\
      work_report l !! "jobStatus" = Some (PyStr "finished") /\
      w = ["/work/worker_attributes.json"; "/work/worker_attributes.json";
           "/work/worker_attributes.json"]
  | RunRaises _ _ => False
  end.
Proof. by vm_compute. Qed.

(** [get_job] fails and the report can be published. *)
Lemma run_except_clause_witness :
  run (sample_ext true false) sample_config sample_args [] =
  RunReturns
    (mkTraces (<["state" := 1%Z]> (pilot sample_traces)))
    (mkLocals
       (<["exitMsg" := PyStr "no job found"]>
          (<["jobStatus" := PyStr "failed"]>
             {[ "jobStatus" := PyStr "starting" ]}))
       "worker_attributes.json"
       (Some (mkTraces (<["state" := 1%Z]> (pilot sample_traces)))))
    ["worker_attributes.json"].
Proof.
  refine (proj1 (proj1 (run_except_clause (sample_ext true false) sample_config
                   sample_args [] [] [] [] "/cwd"
                   {[ "jobStatus" := PyStr "starting" ]} NoJob
                   (mkLocals {[ "jobStatus" := PyStr "starting" ]}
                             "worker_attributes.json" (Some sample_traces))
                   sample_traces _ _ _ _) _ ["worker_attributes.json"] _));
    reflexivity.
Defined.

(** C9 as stated fails when the attributes file cannot be written: the first
    [publish_work_report] of the [try] block raises with [traces] assigned,
    the [except] clause calls it again, and that exception leaves [run]. *)
Lemma run_except_clause_counterexample :
  exists (l : Locals) (tr : Traces),
    try_block (sample_ext false true) sample_config sample_args "/cwd"
              (mkLocals {[ "jobStatus" := PyStr "starting" ]}
                        "worker_attributes.json" None) []
      = Raised IOError l [] /\
    traces l = Some tr /\
    is_Exception IOError = true /\
    run (sample_ext false true) sample_config sample_args [] =
      RunRaises IOError [] /\
    (forall (tr' : Traces) (l' : Locals) (w' : list string),
        run (sample_ext false true) sample_config sample_args [] <>
        RunReturns tr' l' w').
Proof.
  eexists (mkLocals _ _ _), sample_traces.
  split; [vm_compute; reflexivity|].
  split; [reflexivity|]. split; [reflexivity|].
  assert (Hrun : run (sample_ext false true) sample_config sample_args [] =
                 RunRaises IOError []) by (by vm_compute).
  split; [exact Hrun|]. intros tr' l' w'. by rewrite Hrun.
Qed.

(** *** What the statements of the workflow leave alone *)

Section WorkflowFacts.

Context {W F Handle : Type}.
Variable ext : @Externals W F Handle.
Variable config : Config.

Section Frame.

(** A relation between the locals before and after a statement. *)
Variable R : @Locals F -> @Locals F -> Prop.
Hypothesis R_refl : forall l, R l l.
Hypothesis R_trans : forall a b c, R a b -> R b c -> R a c.

(** [m] falls through or raises with locals related to the ones it started
    from, and never executes [return]. *)
Definition keeps {A : Type} (m : @M W F A) : Prop :=
  forall l w,
    match m l w with
    | Normal _ l' _ => R l l'
    | Raised _ l' _ => R l l'
    | Returned _ _ _ => False
    end.

Lemma keeps_ret {A : Type} (a : A) : keeps (ret a).
Proof. intros l w. apply R_refl. Qed.

Lemma keeps_raise {A : Type} (e : Py.exn) : keeps (@raise W F A e).
Proof. intros l w. apply R_refl. Qed.

Lemma keeps_call {A : Type} (op : @Ext W A) : keeps (call op).
Proof.
  intros l w. unfold call. destruct (op w) as [[a|e] w']; apply R_refl.
Qed.

Lemma keeps_lift {A : Type} (r : Py.result A) : keeps (@lift W F A r).
Proof. intros l w. destruct r; apply R_refl. Qed.

Lemma keeps_get_locals : keeps (@get_locals W F).
Proof. intros l w. apply R_refl. Qed.

Lemma keeps_publish : keeps (publish ext).
Proof. intros l w. unfold publish. apply keeps_call. Qed.

Lemma keeps_bind {A B : Type} (m : @M W F A) (k : A -> @M W F B) :
  keeps m -> (forall a, keeps (k a)) -> keeps (bind m k).
Proof.
  intros Hm Hk l w. unfold bind. specialize (Hm l w).
  destruct (m l w) as [a l' w'|e l' w'|tr l' w']; [|done..].
  specialize (Hk a l' w').
  destruct (k a l' w') as [b l'' w''|e l'' w''|tr l'' w'']; [| |done];
    by apply (R_trans l l' l'').
Qed.

Lemma keeps_for_each {A : Type} (xs : list A) (body : A -> @M W F unit) :
  (forall x, keeps (body x)) -> keeps (for_each xs body).
Proof.
  intros Hbody. induction xs as [|x xs IH]; cbn.
  - apply keeps_ret.
  - apply keeps_bind; [apply Hbody|]. by intros _.
Qed.

Lemma keeps_try_except {A : Type} (m : @M W F A) (catches : Py.exn -> bool)
  (handler : Py.exn -> @M W F A) :
  keeps m -> (forall e, keeps (handler e)) ->
  keeps (try_except m catches handler).
Proof.
  intros Hm Hh l w. unfold try_except. specialize (Hm l w).
  destruct (m l w) as [a l' w'|e l' w'|tr l' w']; [done| |done].
  destruct (catches e); [|done]. specialize (Hh e l' w').
  destruct (handler e l' w') as [b l'' w''|e' l'' w''|tr l'' w'']; [| |done];
    by apply (R_trans l l' l'').
Qed.

Lemma keeps_try_finally {A : Type} (m : @M W F A) (cleanup : @M W F unit) :
  keeps m -> keeps cleanup -> keeps (try_finally m cleanup).
Proof.
  intros Hm Hc l w. unfold try_finally. specialize (Hm l w).
  destruct (m l w) as [a l' w'|e l' w'|tr l' w']; [| |done];
    specialize (Hc l' w');
    (destruct (cleanup l' w') as [b l'' w''|e' l'' w''|tr l'' w'']; [| |done]);
    by apply (R_trans l l' l'').
Qed.

Lemma keeps_copy_output (job : Job) (job_scratch_dir work_dir : string) :
  keeps (copy_output ext job job_scratch_dir work_dir).
Proof.
  unfold copy_output.
  apply keeps_bind; [apply keeps_call|intros cp_start].
  apply keeps_bind; [|intros _; apply keeps_ret].
  apply keeps_try_finally.
  - apply keeps_try_except; [|intros e; apply keeps_raise].
    apply keeps_bind; [|intros _; apply keeps_call].
    apply keeps_for_each. intros outfile.
    apply keeps_bind; [apply keeps_call|intros [|]];
      [apply keeps_call|apply keeps_ret].
  - apply keeps_bind; [apply keeps_call|intros now; apply keeps_ret].
Qed.

Lemma keeps_declare_files (files : list (string * pyval)) (job : Job)
  (report : gmap string pyval) (acc : list (list (string * pyval))) :
  keeps (declare_files ext files job report acc).
Proof.
  revert job acc. induction files as [|[outfile description] files IH];
    intros job acc; cbn [declare_files].
  - apply keeps_ret.
  - apply keeps_bind; [apply keeps_call|intros [|]]; [|apply IH].
    apply keeps_bind; [apply keeps_call|intros path].
    apply keeps_bind; [apply keeps_call|intros fsize].
    apply keeps_bind; [apply keeps_lift|intros guid]. apply IH.
Qed.

Lemma keeps_declare_output (job : Job) (report : gmap string pyval)
  (declaration : string) :
  keeps (declare_output ext job report declaration).
Proof.
  unfold declare_output.
  apply keeps_bind; [apply keeps_declare_files|intros [out job']].
  destruct out; [apply keeps_ret|].
  apply keeps_bind; [apply keeps_call|intros _; apply keeps_ret].
Qed.

End Frame.

(** The statements before the last one of the [try] block never touch
    [traces]. *)
Definition same_traces (l l' : @Locals F) : Prop := traces l' = traces l.

Lemma same_traces_refl (l : @Locals F) : same_traces l l.
Proof. done. Qed.

Lemma same_traces_trans (a b c : @Locals F) :
  same_traces a b -> same_traces b c -> same_traces a c.
Proof. unfold same_traces. congruence. Qed.

Lemma st_ret {A : Type} (a : A) : keeps same_traces (@ret W F A a).
Proof. apply keeps_ret, same_traces_refl. Qed.

Lemma st_raise {A : Type} (e : Py.exn) : keeps same_traces (@raise W F A e).
Proof. apply keeps_raise, same_traces_refl. Qed.

Lemma st_call {A : Type} (op : @Ext W A) : keeps same_traces (@call W F A op).
Proof. apply keeps_call, same_traces_refl. Qed.

Lemma st_get_locals : keeps same_traces (@get_locals W F).
Proof. apply keeps_get_locals, same_traces_refl. Qed.

Lemma st_publish : keeps same_traces (publish ext).
Proof. apply keeps_publish, same_traces_refl. Qed.

Lemma st_bind {A B : Type} (m : @M W F A) (k : A -> @M W F B) :
  keeps same_traces m -> (forall a, keeps same_traces (k a)) ->
  keeps same_traces (bind m k).
Proof. apply keeps_bind, same_traces_trans. Qed.

Lemma st_copy_output (job : Job) (job_scratch_dir work_dir : string) :
  keeps same_traces (copy_output ext job job_scratch_dir work_dir).
Proof. apply keeps_copy_output; [apply same_traces_refl|apply same_traces_trans]. Qed.

Lemma st_declare_output (job : Job) (report : gmap string pyval)
  (declaration : string) :
  keeps same_traces (declare_output ext job report declaration).
Proof.
  apply keeps_declare_output; [apply same_traces_refl|apply same_traces_trans].
Qed.

Lemma st_set_work_report (key : string) (v : pyval) :
  keeps same_traces (@set_work_report W F key v).
Proof. by intros l w. Qed.

Lemma st_update_work_report (d : gmap string pyval) :
  keeps same_traces (@update_work_report W F d).
Proof. by intros l w. Qed.

Lemma st_set_worker_attributes_file (path : string) :
  keeps same_traces (@set_worker_attributes_file W F path).
Proof. by intros l w. Qed.

(** [m] either raises without touching [traces] or falls through having set
    [traces.pilot['state']] to [v], and never executes [return]. *)
Definition ends_setting (v : Z) {A : Type} (m : @M W F A) : Prop :=
  forall l w,
    match m l w with
    | Normal _ l' _ =>
        exists tr, traces l = Some tr /\
                   traces l' = Some (mkTraces (<["state" := v]> (pilot tr)))
    | Raised _ l' _ => traces l' = traces l
    | Returned _ _ _ => False
    end.

Lemma ends_setting_bind (v : Z) {A B : Type} (m : @M W F A)
  (k : A -> @M W F B) :
  keeps same_traces m -> (forall a, ends_setting v (k a)) ->
  ends_setting v (bind m k).
Proof.
  intros Hm Hk l w. unfold bind. specialize (Hm l w).
  destruct (m l w) as [a l' w'|e l' w'|tr l' w']; [|done..].
  specialize (Hk a l' w'). unfold same_traces in Hm.
  destruct (k a l' w') as [b l'' w''|e l'' w''|tr l'' w'']; [| |done].
  - destruct Hk as (tr & Htr & Hfinal). exists tr. by rewrite <- Hm.
  - congruence.
Qed.

Lemma ends_setting_set_pilot_state (v : Z) :
  ends_setting v (@set_pilot_state W F v).
Proof.
  intros l w. unfold set_pilot_state, bind, get_traces, set_traces.
  destruct (traces l) as [tr|] eqn:Htr; [|done]. cbn. by exists tr.
Qed.

Ltac traces_frame :=
  repeat first
    [ apply st_ret | apply st_raise | apply st_call | apply st_get_locals
    | apply st_publish | apply st_set_work_report
    | apply st_update_work_report | apply st_set_worker_attributes_file
    | apply st_copy_output | apply st_declare_output
    | apply st_bind; [|intros ?]
    | match goal with
      | |- keeps _ (match ?x with _ => _ end) => destruct x
      end ].

Ltac traces_chain :=
  repeat first
    [ apply ends_setting_set_pilot_state
    | apply ends_setting_bind; [traces_frame|intros ?]
    | match goal with
      | |- ends_setting _ (match ?x with _ => _ end) => destruct x
      end ].

(** The traces as line 61 of [run] assigns them. *)
Definition initial_traces : Traces :=
  mkTraces {[ "state" := SUCCESS ext; "nr_jobs" := 0%Z ]}.

Definition failure_traces : Traces :=
  mkTraces {[ "state" := FAILURE ext; "nr_jobs" := 0%Z ]}.

Lemma initial_traces_success :
  mkTraces (<["state" := SUCCESS ext]> (pilot initial_traces)) = initial_traces.
Proof. unfold initial_traces. cbn. by rewrite insert_insert_eq. Qed.

Lemma initial_traces_failure :
  mkTraces (<["state" := FAILURE ext]> (pilot initial_traces)) = failure_traces.
Proof. unfold initial_traces, failure_traces. cbn. by rewrite insert_insert_eq. Qed.

Lemma bind_call_returns {A B : Type} (op : @Ext W A) (k : A -> @M W F B)
  (l : @Locals F) (w w' : W) (a : A) :
  op w = (Py.Returns a, w') -> bind (call op) k l w = k a l w'.
Proof. intros Hop. unfold bind, call. by rewrite Hop. Qed.

Lemma bind_call_raises {A B : Type} (op : @Ext W A) (k : A -> @M W F B)
  (l : @Locals F) (w w' : W) (e : Py.exn) :
  op w = (Py.Raises e, w') -> bind (call op) k l w = Raised e l w'.
Proof. intros Hop. unfold bind, call. by rewrite Hop. Qed.

(** How the [try] block ends once [signal.signal] has returned. *)
Lemma try_block_outcome (args : Args) (communication_point : string)
  (l : @Locals F) (w w1 : W) :
  signal_signal ext w = (Py.Returns tt, w1) ->
  match try_block ext config args communication_point l w with
  | Normal _ l' _ => traces l' = Some initial_traces
  | Raised _ l' _ => traces l' = Some initial_traces
  | Returned tr l' w' =>
      hpc_resource args = "" /\ tr = failure_traces /\ w' = w1 /\
      l' = mkLocals (work_report l) (worker_attributes_file l)
                    (Some failure_traces)
  end.
Proof.
  intros Hsig. unfold try_block. cbv zeta.
  rewrite (bind_call_returns _ _ _ _ _ _ Hsig).
  unfold bind at 1. unfold set_traces at 1.
  fold initial_traces.
  destruct (String.eqb (hpc_resource args) "") eqn:Hres.
  - apply String.eqb_eq in Hres.
    unfold set_pilot_state, bind, get_traces, set_traces, return_.
    cbn [traces pilot work_report worker_attributes_file].
    by rewrite initial_traces_failure.
  - match goal with
    | |- match ?c ?l1 ?w1 with _ => _ end =>
        assert (Hc : ends_setting (SUCCESS ext) c) by traces_chain;
        specialize (Hc l1 w1); destruct (c l1 w1) as [a l' w'|e l' w'|tr l' w']
    end; [| |done].
    + destruct Hc as (tr & [= <-] & ->). by rewrite initial_traces_success.
    + by rewrite Hc.
Qed.

Lemma try_block_signal_raises (args : Args) (communication_point : string)
  (l : @Locals F) (w w1 : W) (e : Py.exn) :
  signal_signal ext w = (Py.Raises e, w1) ->
  try_block ext config args communication_point l w = Raised e l w1.
Proof.
  intros Hsig. unfold try_block. cbv zeta.
  by rewrite (bind_call_raises _ _ _ _ _ _ Hsig).
Qed.

Lemma try_block_without_resource (args : Args) (communication_point : string)
  (l : @Locals F) (w w1 : W) :
  hpc_resource args = "" ->
  signal_signal ext w = (Py.Returns tt, w1) ->
  try_block ext config args communication_point l w =
  Returned failure_traces
           (mkLocals (work_report l) (worker_attributes_file l)
                     (Some failure_traces)) w1.
Proof.
  intros Hres Hsig.
  pose proof (try_block_outcome args communication_point l w w1 Hsig) as Hout.
  revert Hout. unfold try_block. cbv zeta.
  rewrite (bind_call_returns _ _ _ _ _ _ Hsig).
  unfold bind at 1. unfold set_traces at 1. rewrite Hres. cbn [String.eqb].
  unfold set_pilot_state, bind, get_traces, set_traces, return_.
  cbn [traces pilot work_report worker_attributes_file].
  intros (_ & Htr & _ & Hl). rewrite Hl. by rewrite Htr.
Qed.

(** The [except] clause when [traces] was never assigned: the report is
    published, and the assignment to [traces.pilot] fails on the name. *)
Lemma except_clause_unassigned (e : Py.exn) (l : @Locals F) (w : W) :
  traces l = None ->
  except_clause ext e l w =
  match publish_work_report ext (failed_report e l)
                            (worker_attributes_file l) w with
  | (Py.Returns _, w') =>
      Raised UnboundLocalError
             (mkLocals (failed_report e l) (worker_attributes_file l) None)
             (log_exception ext w')
  | (Py.Raises e', w') =>
      Raised e' (mkLocals (failed_report e l) (worker_attributes_file l) None)
             w'
  end.
Proof.
  intros Htr.
  unfold except_clause, bind, set_work_report, publish, call,
    set_pilot_state, bind, get_traces.
  cbn. fold (failed_report e l). rewrite Htr.
  by destruct (publish_work_report ext _ _ w) as [[[]|e'] w'].
Qed.

(** *** More about [run] *)

(** X7: with an empty [args.hpc_resource], once the communication point,
    the initial work report and [signal.signal] are there, [run] returns at
    once: the traces hold state FAILURE and [nr_jobs] 0, the work report is
    the initial one, and the world is the one [signal.signal] left -- no
    module is imported, no job is fetched, nothing is published. *)
Theorem run_without_resource (args : Args) (w0 w1 w2 w3 : W)
  (communication_point : string) (report : gmap string pyval) :
  hpc_resource args = "" ->
  communication_point_of ext args w0 = (Py.Returns communication_point, w1) ->
  get_initial_work_report ext w1 = (Py.Returns report, w2) ->
  signal_signal ext w2 = (Py.Returns tt, w3) ->
  run ext config args w0 =
  RunReturns failure_traces
             (mkLocals report (workerAttributesFile config)
                       (Some failure_traces)) w3.
Proof.
  intros Hres Hpoint Hreport Hsig. unfold run. rewrite Hpoint, Hreport.
  unfold guarded, try_except.
  by rewrite (try_block_without_resource args communication_point _ w2 w3
                Hres Hsig).
Qed.

(** X8: when [signal.signal] itself raises a subclass of [Exception],
    [traces] has not been assigned yet: the [except] clause publishes the
    failed report and then fails on the unassigned name, so [run] raises
    [UnboundLocalError] and returns nothing; when the publication raises,
    that exception leaves [run] instead. *)
Theorem run_signal_raises (args : Args) (w0 w1 w2 w3 : W)
  (communication_point : string) (report : gmap string pyval) (e : Py.exn) :
  communication_point_of ext args w0 = (Py.Returns communication_point, w1) ->
  get_initial_work_report ext w1 = (Py.Returns report, w2) ->
  signal_signal ext w2 = (Py.Raises e, w3) ->
  is_Exception e = true ->
  run ext config args w0 =
  match publish_work_report ext
          (<["exitMsg" := PyStr (Py.str e)]>
             (<["jobStatus" := PyStr "failed"]> report))
          (workerAttributesFile config) w3 with
  | (Py.Returns _, w4) => RunRaises UnboundLocalError (log_exception ext w4)
  | (Py.Raises e', w4) => RunRaises e' w4
  end.
Proof.
  intros Hpoint Hreport Hsig Hexc. unfold run. rewrite Hpoint, Hreport.
  unfold guarded, try_except.
  rewrite (try_block_signal_raises args communication_point _ w2 w3 e Hsig).
  rewrite Hexc, except_clause_unassigned by done.
  unfold failed_report. cbn [work_report worker_attributes_file].
  by destruct (publish_work_report ext _ _ w3) as [[[]|e'] w4].
Qed.

(** X9: once [signal.signal] has returned, an exception of the [try] block
    always finds [traces] assigned: if a subclass of [Exception] is raised
    and the publication of the failed report returns, [run] returns traces
    with state FAILURE and [nr_jobs] 0. *)
Theorem run_failure_traces (args : Args) (w0 w1 w2 w3 w w' : W)
  (communication_point : string) (report : gmap string pyval)
  (e : Py.exn) (l : @Locals F) :
  communication_point_of ext args w0 = (Py.Returns communication_point, w1) ->
  get_initial_work_report ext w1 = (Py.Returns report, w2) ->
  signal_signal ext w2 = (Py.Returns tt, w3) ->
  try_block ext config args communication_point
            (mkLocals report (workerAttributesFile config) None) w2
    = Raised e l w ->
  is_Exception e = true ->
  publish_work_report ext (failed_report e l) (worker_attributes_file l) w
    = (Py.Returns tt, w') ->
  run ext config args w0 =
  RunReturns failure_traces
             (mkLocals (failed_report e l) (worker_attributes_file l)
                       (Some failure_traces))
             (log_exception ext w').
Proof.
  intros Hpoint Hreport Hsig Hraised Hexc Hpub.
  pose proof (try_block_outcome args communication_point
                (mkLocals report (workerAttributesFile config) None)
                w2 w3 Hsig) as Hout.
  rewrite Hraised in Hout.
  unfold run. rewrite Hpoint, Hreport. unfold guarded, try_except.
  rewrite Hraised, Hexc.
  rewrite (except_clause_published ext e l w w' initial_traces Hout Hpub).
  cbn [traces]. unfold failed_traces. by rewrite initial_traces_failure.
Qed.

(** X10: whenever [run] returns, the traces it returns are the local
    [traces], their [nr_jobs] is 0, and their state is SUCCESS or FAILURE:
    [{'state': SUCCESS, 'nr_jobs': 0}] or [{'state': FAILURE, 'nr_jobs': 0}]. *)
Theorem run_returns_success_or_failure (args : Args) (w w' : W)
  (tr : Traces) (l : @Locals F) :
  run ext config args w = RunReturns tr l w' ->
  traces l = Some tr /\ pilot tr !! "nr_jobs" = Some 0%Z /\
  (tr = initial_traces \/ tr = failure_traces).
Proof.
  assert (Hjobs : forall t, t = initial_traces \/ t = failure_traces ->
                            pilot t !! "nr_jobs" = Some 0%Z).
  { intros t [-> | ->]; cbn; rewrite lookup_insert_ne by done;
      by rewrite lookup_singleton_eq. }
  unfold run.
  destruct (communication_point_of ext args w) as [[cp|e] w1]; [|done].
  destruct (get_initial_work_report ext w1) as [[report|e] w2]; [|done].
  unfold guarded, try_except.
  destruct (signal_signal ext w2) as [[[]|e] w3] eqn:Hsig.
  - pose proof (try_block_outcome args cp
                  (mkLocals report (workerAttributesFile config) None)
                  w2 w3 Hsig) as Hout.
    destruct (try_block ext config args cp _ w2) as [a l1 wa|e l1 wa|t l1 wa].
    + rewrite Hout. intros [= <- <- <-]. auto.
    + destruct (is_Exception e); [|done].
      destruct (publish_work_report ext (failed_report e l1)
                  (worker_attributes_file l1) wa) as [[[]|e'] wb] eqn:Hpub.
      * rewrite (except_clause_published ext e l1 wa wb initial_traces
                   Hout Hpub).
        cbn [traces]. unfold failed_traces. rewrite initial_traces_failure.
        intros [= <- <- <-]. auto.
      * by rewrite (except_clause_publish_raises ext e e' l1 wa wb Hpub).
    + destruct Hout as (_ & -> & -> & ->). intros [= <- <- <-]. auto.
  - rewrite (try_block_signal_raises args cp _ w2 w3 e Hsig).
    destruct (is_Exception e); [|done].
    rewrite except_clause_unassigned by done.
    by destruct (publish_work_report ext _ _ w3) as [[[]|e'] w4].
Qed.

(** *** [copy_output] and [declare_output] *)

Definition copy_failure : Py.exn :=
  FileHandlingFailure ext "Copy from scratch dir to access point failed".

(** X11: as long as [time.time()] returns, [copy_output] either returns 0
    or raises, in both cases with the locals of its caller untouched, and no
    [IOError] of [copy] or [os.chdir] leaves it as it is: what it raises is
    the [FileHandlingFailure] of its [except] clause or an exception that is
    no [IOError]. *)
Theorem copy_output_outcome (job : Job) (job_scratch_dir work_dir : string)
  (l : @Locals F) (w : W) :
  (forall w0, exists f w1, time_time ext w0 = (Py.Returns f, w1)) ->
  match copy_output ext job job_scratch_dir work_dir l w with
  | Normal r l' _ => r = 0%Z /\ l' = l
  | Raised e l' _ =>
      l' = l /\ (e = copy_failure \/ isinstance_IOError ext e = false)
  | Returned _ _ _ => False
  end.
Proof.
  intros Htime. unfold copy_output.
  destruct (Htime w) as (f & w1 & Ht).
  rewrite (bind_call_returns _ _ _ _ _ _ Ht).
  unfold bind at 1. unfold try_finally, try_except.
  match goal with
  | |- context [for_each ?xs ?body] =>
      assert (Hloop : keeps eq (bind (for_each xs body)
                                     (fun _ => call (chdir ext work_dir))))
  end.
  { apply keeps_bind; [congruence| |intros _; by apply keeps_call].
    apply keeps_for_each; [done|congruence|]. intros outfile.
    apply keeps_bind; [congruence|by apply keeps_call|].
    intros [|]; [by apply keeps_call|by apply keeps_ret]. }
  specialize (Hloop l w1).
  match goal with
  | |- context [bind (for_each ?xs ?body) ?k l w1] =>
      destruct (bind (for_each xs body) k l w1) as [a l' w'|e l' w'|tr l' w']
  end; [| |done]; subst l'.
  - destruct (Htime w') as (f' & w2 & Ht').
    by rewrite (bind_call_returns _ _ _ _ _ _ Ht').
  - destruct (isinstance_IOError ext e) eqn:Hio; unfold raise;
      destruct (Htime w') as (f' & w2 & Ht');
      rewrite (bind_call_returns _ _ _ _ _ _ Ht'); cbn; auto.
Qed.

(** The job entry of an output file carries a [guid]. *)
Definition has_guid (description : (@pyval F)) : bool :=
  match description with
  | PyDict items => existsb (fun kv => String.eqb kv.1 "guid") items
  | _ => false
  end.

(** The description [declare_output] writes for a file, given what
    [os.path.abspath] and [os.path.getsize] answer. *)
Definition described (abs_ : string -> string) (size_ : string -> Z)
  (job : (@Job F)) (file : string * (@pyval F)) : list (string * (@pyval F)) :=
  [("type", PyStr (if String.eqb file.1 (log_file job) then "log" else "output"));
   ("path", PyStr (abs_ file.1)); ("fsize", PyInt (size_ file.1))]
  ++ match subscript file.2 "guid" with
     | Py.Returns guid => [("guid", guid)]
     | Py.Raises _ => []
     end.

Lemma subscript_present (items : list (string * (@pyval F))) (key : string) :
  existsb (fun kv => String.eqb kv.1 key) items = true ->
  exists x, subscript (PyDict items) key = Py.Returns x.
Proof.
  unfold subscript. induction items as [|[k v] items IH]; cbn; [done|].
  destruct (String.eqb k key) eqn:Hk; cbn.
  - intros _. destruct (decide (true = true)); [|done]. by eexists.
  - intros Hrest. destruct (decide (false = true)); [done|].
    destruct (IH Hrest) as [x Hx]. exists x.
    destruct (list_find _ items) as [[i [k' x']]|]; cbn in *; [done|done].
Qed.

Lemma declare_guid_present (report : gmap string (@pyval F)) (outfile : string)
  (description : (@pyval F)) :
  has_guid description = true ->
  exists guid,
    subscript description "guid" = Py.Returns guid /\
    declare_guid ext report outfile description = Py.Returns [("guid", guid)].
Proof.
  destruct description as [| | | |items]; try done. cbn [has_guid].
  intros Hguid. destruct (subscript_present items "guid" Hguid) as [x Hx].
  exists x. split; [done|]. unfold declare_guid. by rewrite Hguid, Hx.
Qed.

Section ReadOnlyFiles.

(** The file-system queries answer from fixed tables and change nothing. *)
Variable exists_ : string -> bool.
Variable abs_ : string -> string.
Variable size_ : string -> Z.
Hypothesis path_exists_reads :
  forall p w, path_exists ext p w = (Py.Returns (exists_ p), w).
Hypothesis abspath_reads :
  forall p w, abspath ext p w = (Py.Returns (abs_ p), w).
Hypothesis getsize_reads :
  forall p w, getsize ext p w = (Py.Returns (size_ p), w).

Definition present (file : string * (@pyval F)) : bool := exists_ file.1.

Definition declared_job (job : (@Job F)) : (@Job F) :=
  if forallb present (output_files job) then job else set_job_state "failed" job.

Lemma declare_files_spec (files : list (string * (@pyval F))) (job : (@Job F))
  (report : gmap string (@pyval F)) (acc : list (list (string * (@pyval F))))
  (l : @Locals F) (w : W) :
  Forall (fun file => present file = true -> has_guid file.2 = true) files ->
  declare_files ext files job report acc l w =
  Normal ((acc ++ map (described abs_ size_ job) (List.filter present files))%list,
          if forallb present files then job else set_job_state "failed" job)
         l w.
Proof.
  intros Hfiles. revert job acc.
  induction Hfiles as [|[outfile description] files Hfile _ IH];
    intros job acc.
  - cbn. by rewrite app_nil_r.
  - cbn [declare_files].
    rewrite (bind_call_returns _ _ _ _ _ _ (path_exists_reads outfile w)).
    cbn [List.filter forallb].
    change (present (outfile, description)) with (exists_ outfile).
    destruct (exists_ outfile) eqn:Hex.
    + rewrite (bind_call_returns _ _ _ _ _ _ (abspath_reads outfile w)).
      rewrite (bind_call_returns _ _ _ _ _ _ (getsize_reads outfile w)).
      destruct (declare_guid_present report outfile description)
        as (guid & Hsub & Hguid); [by apply Hfile|].
      unfold bind at 1. unfold lift at 1. rewrite Hguid.
      rewrite IH. cbn [map andb]. unfold described at 2. cbn [fst snd].
      rewrite Hsub. by rewrite <- app_assoc.
    + change (mkJob (jobid job) (script job) (script_parameters job) "failed"
                (startTime job) (endTime job) (exitcode job)
                (output_files job) (log_file job))
        with (set_job_state "failed" job).
      rewrite IH. cbn [andb]. by destruct (forallb present files).
Qed.

(** X12: when the file-system queries only read and every output file that
    exists carries a [guid] in the job, [declare_output] describes exactly
    the output files that exist, in the order of the job, writes them with
    one [write_json] call -- and does not call it when no file exists --
    sets the job state to 'failed' exactly when some output file is missing,
    and leaves the locals of its caller untouched. *)
Theorem declare_output_spec (job : (@Job F)) (report : gmap string (@pyval F))
  (declaration : string) (l : @Locals F) (w : W) :
  Forall (fun file => present file = true -> has_guid file.2 = true)
         (output_files job) ->
  declare_output ext job report declaration l w =
  match map (described abs_ size_ job)
            (List.filter present (output_files job)) with
  | [] => Normal (declared_job job) l w
  | description :: descriptions =>
      match write_json ext declaration (jobid job)
                       (description :: descriptions) w with
      | (Py.Returns _, w') => Normal (declared_job job) l w'
      | (Py.Raises e, w') => Raised e l w'
      end
  end.
Proof.
  intros Hfiles. unfold declare_output, bind at 1.
  rewrite (declare_files_spec _ job report [] l w Hfiles). cbn [app].
  fold (declared_job job).
  destruct (map _ _) as [|description descriptions]; [done|].
  unfold bind, call, ret.
  by destruct (write_json ext declaration (jobid job) _ w) as [[[]|e] w'].
Qed.

(** X13: when the file-system queries only read, the first output file that
    exists without a [guid] in the job makes [declare_output] look it up in
    [work_report['outputfiles']]; if the work report has no such key,
    [declare_output] raises [KeyError] and nothing is written. *)
Theorem declare_output_missing_outputfiles (job : (@Job F))
  (report : gmap string (@pyval F)) (declaration : string) (l : @Locals F) (w : W)
  (before after : list (string * (@pyval F))) (outfile : string)
  (items : list (string * (@pyval F))) :
  output_files job = (before ++ (outfile, PyDict items) :: after)%list ->
  Forall (fun file => present file = true -> has_guid file.2 = true) before ->
  exists_ outfile = true ->
  has_guid (PyDict items) = false ->
  report !! "outputfiles" = None ->
  declare_output ext job report declaration l w =
  Raised (KeyError "outputfiles") l w.
Proof.
  intros Hfiles Hbefore Hex Hguid Hreport. unfold declare_output, bind at 1.
  rewrite Hfiles. clear Hfiles.
  assert (Hloop : forall job0 acc,
             declare_files ext (before ++ (outfile, PyDict items) :: after)%list
                           job0 report acc l w
             = Raised (KeyError "outputfiles") l w).
  { induction Hbefore as [|[f d] before Hfile _ IH]; intros job0 acc.
    - cbn [app declare_files].
      rewrite (bind_call_returns _ _ _ _ _ _ (path_exists_reads outfile w)).
      rewrite Hex.
      rewrite (bind_call_returns _ _ _ _ _ _ (abspath_reads outfile w)).
      rewrite (bind_call_returns _ _ _ _ _ _ (getsize_reads outfile w)).
      unfold bind, lift, declare_guid. cbn [has_guid] in Hguid.
      by rewrite Hguid, Hreport.
    - cbn [app declare_files].
      rewrite (bind_call_returns _ _ _ _ _ _ (path_exists_reads f w)).
      destruct (exists_ f) eqn:Hf; [|apply IH].
      rewrite (bind_call_returns _ _ _ _ _ _ (abspath_reads f w)).
      rewrite (bind_call_returns _ _ _ _ _ _ (getsize_reads f w)).
      destruct (declare_guid_present report f d) as (guid & _ & Hg);
        [by apply Hfile|].
      unfold bind at 1. unfold lift at 1. rewrite Hg. apply IH. }
  by rewrite Hloop.
Qed.

End ReadOnlyFiles.

End WorkflowFacts.

(** *** The extra facts in the small world *)

(** The same externals with another [signal.signal]. *)
Definition with_signal {W F Handle : Type} (op : @Ext W unit)
  (e : @Externals W F Handle) : @Externals W F Handle :=
  mkExternals
    (SUCCESS e) (FAILURE e) (getcwd e) (get_initial_work_report e) op
    (import_resource e) (import_user e) (get_job e) (set_job_workdir e)
    (publish_work_report e) (get_setup e) (set_scratch_workdir e)
    (command_fix e) (open_w e) (utcnow e) (asctime e) (time_time e)
    (os_times e) (execute e) (close e) (path_exists e) (read_json e)
    (parse_jobreport_data e) (process_jobreport e) (postprocess_workdir e)
    (remove_redundant_files e) (tar_files e) (copy e) (chdir e) (abspath e)
    (getsize e) (write_json e) (log_exception e) (fsub e) (float_nonzero e)
    (isinstance_IOError e) (FileHandlingFailure e).

Definition ValueError : Py.exn :=
  Py.mkExn Py.ExceptionSubclass "ValueError"
           "signal only works in main thread".

Definition no_resource_args : Args := mkArgs None "" "ATLAS".

Definition starting_report : gmap string (@pyval unit) :=
  {[ "jobStatus" := PyStr "starting" ]}.

Definition starting_locals : @Locals unit :=
  mkLocals starting_report "worker_attributes.json" None.

(** A job whose only output file has no [guid]. *)
Definition unregistered_job : @Job unit :=
  mkJob "4243" "run.sh" "" "" "" "" 0 [("out.root", PyDict [])] "log.tgz".

Lemma run_without_resource_witness :
  run (sample_ext false false) sample_config no_resource_args [] =
  RunReturns (failure_traces (sample_ext false false))
             (mkLocals starting_report "worker_attributes.json"
                       (Some (failure_traces (sample_ext false false)))) [].
Proof.
  apply (run_without_resource (sample_ext false false) sample_config
           no_resource_args [] [] [] [] "/cwd" starting_report);
    reflexivity.
Defined.

Lemma run_signal_raises_witness :
  run (with_signal (fun w => (Py.Raises ValueError, w)) (sample_ext false false))
      sample_config sample_args [] =
  RunRaises UnboundLocalError ["worker_attributes.json"].
Proof.
  apply (run_signal_raises
           (with_signal (fun w => (Py.Raises ValueError, w))
                        (sample_ext false false))
           sample_config sample_args [] [] [] [] "/cwd" starting_report
           ValueError); reflexivity.
Defined.

Lemma run_failure_traces_witness :
  run (sample_ext true false) sample_config sample_args [] =
  RunReturns (failure_traces (sample_ext true false))
             (mkLocals (failed_report NoJob
                          (mkLocals starting_report "worker_attributes.json"
                                    (Some sample_traces)))
                       "worker_attributes.json"
                       (Some (failure_traces (sample_ext true false))))
             ["worker_attributes.json"].
Proof.
  apply (run_failure_traces (sample_ext true false) sample_config sample_args
           [] [] [] [] [] ["worker_attributes.json"] "/cwd" starting_report
           NoJob
           (mkLocals starting_report "worker_attributes.json"
                     (Some sample_traces)));
    reflexivity.
Defined.

Lemma run_returns_success_or_failure_witness :
  pilot (failure_traces (sample_ext false false)) !! "nr_jobs" = Some 0%Z.
Proof.
  exact (proj1 (proj2 (run_returns_success_or_failure
                         (sample_ext false false) sample_config
                         no_resource_args [] []
                         (failure_traces (sample_ext false false))
                         (mkLocals starting_report "worker_attributes.json"
                            (Some (failure_traces (sample_ext false false))))
                         eq_refl))).
Defined.

Lemma copy_output_outcome_witness :
  match copy_output (sample_ext false false) sample_job "/scratch" "/work"
                    starting_locals [] with
  | Normal r l' _ => r = 0%Z /\ l' = starting_locals
  | Raised e l' _ =>
      l' = starting_locals /\
      (e = copy_failure (sample_ext false false) \/
       isinstance_IOError (sample_ext false false) e = false)
  | Returned _ _ _ => False
  end.
Proof.
  apply (copy_output_outcome (sample_ext false false) sample_job "/scratch"
           "/work" starting_locals []).
  intros w0. by exists tt, w0.
Defined.

Lemma declare_output_spec_witness :
  declare_output (sample_ext false false) sample_job starting_report
                 "worker_stageout.json" starting_locals [] =
  Normal sample_job starting_locals [].
Proof.
  rewrite (declare_output_spec (sample_ext false false) (fun _ => true)
             (fun path => path) (fun _ => 1%Z)
             ltac:(reflexivity) ltac:(reflexivity) ltac:(reflexivity)
             sample_job starting_report "worker_stageout.json"
             starting_locals []).
  - reflexivity.
  - apply Forall_cons_2; [reflexivity|apply Forall_nil_2].
Defined.

Lemma declare_output_missing_outputfiles_witness :
  declare_output (sample_ext false false) unregistered_job starting_report
                 "worker_stageout.json" starting_locals [] =
  Raised (KeyError "outputfiles") starting_locals [].
Proof.
  apply (declare_output_missing_outputfiles (sample_ext false false)
           (fun _ => true) (fun path => path) (fun _ => 1%Z)
           ltac:(reflexivity) ltac:(reflexivity) ltac:(reflexivity)
           unregistered_job starting_report "worker_stageout.json"
           starting_locals [] [] [] "out.root" []);
    try reflexivity.
  apply Forall_nil_2.
Defined.

End GenericHpc.
